(** * Pipelines consolidator: a shallow embedding of the report pipeline

    The program inventories Jenkins jobs, reads each job's configuration,
    fetches the Jenkinsfile from GitLab for jobs defined from SCM, classifies
    it and writes one CSV row per job.  This development embeds

    - [packages/gitlab/gitlab_api.py]  (module [GitLabAPI]),
    - [packages/jenkins/jenkins_api.py] (module [JenkinsAPI]),
    - [packages/helpers/helpers.py]     (module [Helpers]),
    - the loop of [__main__.py]          (module [Main]),
    - the start of [__main__.py] with [JenkinsAPI.get_crumb] and
      [JenkinsAPI.fetch_jobs]            (module [Discovery]),

    over Python strings modelled as [string] (8-bit characters), the part of
    Python's [re] the program uses (module [Re]) and the part of [str] it
    uses (module [Str]).  The HTTP servers, the XML and JSON decoders and
    the clock are the environment of the program (record [Env]), which the
    embedded functions take as a parameter. *)

From Stdlib Require Import String Ascii List Bool Arith ZArith Lia.
Import ListNotations.
Local Open Scope string_scope.
Set Warnings "-register-all".

(** ** Python [str] methods used by the program *)

Module Str.

Definition LF : ascii := "010"%char.

(** [s.startswith(p)] *)
Fixpoint startswith (p s : string) : bool :=
  match p with
  | EmptyString => true
  | String a p' =>
      match s with
      | EmptyString => false
      | String c s' => Ascii.eqb a c && startswith p' s'
      end
  end.

(** [sub in s] *)
Fixpoint contains (sub s : string) : bool :=
  startswith sub s ||
  match s with
  | EmptyString => false
  | String _ s' => contains sub s'
  end.

(** [s.endswith(p)] *)
Fixpoint endswith (p s : string) : bool :=
  String.eqb p s ||
  match s with
  | EmptyString => false
  | String _ s' => endswith p s'
  end.

(** [s.replace(old, new)] for a non-empty [old]: occurrences are taken
    from the left and do not overlap.  [skip] counts the characters of an
    occurrence that are still to be dropped. *)
Fixpoint replace_from (old new : string) (skip : nat) (s : string) : string :=
  match s with
  | EmptyString => EmptyString
  | String c s' =>
      match skip with
      | S k => replace_from old new k s'
      | O =>
          if startswith old s
          then new ++ replace_from old new (String.length old - 1) s'
          else String c (replace_from old new 0 s')
      end
  end.

Definition replace (old new s : string) : string := replace_from old new 0 s.

(** [s.split(sep)] for a non-empty [sep]; [cur] is the current piece,
    reversed. *)
Fixpoint rev_string (acc s : string) : string :=
  match s with
  | EmptyString => acc
  | String c s' => rev_string (String c acc) s'
  end.

Fixpoint split_from (sep : string) (skip : nat) (cur : string) (s : string)
  : list string :=
  match s with
  | EmptyString => [rev_string "" cur]
  | String c s' =>
      match skip with
      | S k => split_from sep k cur s'
      | O =>
          if startswith sep s
          then rev_string "" cur :: split_from sep (String.length sep - 1) "" s'
          else split_from sep 0 (String c cur) s'
      end
  end.

Definition split (sep s : string) : list string := split_from sep 0 "" s.

(** Python's whitespace on the ASCII range: TAB, LF, VT, FF, CR, the four
    separators FS, GS, RS, US, and the space. *)
Definition isspace (c : ascii) : bool :=
  let n := nat_of_ascii c in
  (Nat.leb 9 n && Nat.leb n 13) || (Nat.leb 28 n && Nat.leb n 32).

(** [str.isalnum] or underscore on the ASCII range: the class [\w]. *)
Definition isword (c : ascii) : bool :=
  let n := nat_of_ascii c in
  (Nat.leb 48 n && Nat.leb n 57) || (Nat.leb 65 n && Nat.leb n 90)
  || (Nat.leb 97 n && Nat.leb n 122) || Nat.eqb n 95.

Fixpoint lstrip_by (p : ascii -> bool) (s : string) : string :=
  match s with
  | EmptyString => EmptyString
  | String c s' => if p c then lstrip_by p s' else s
  end.

Definition strip_by (p : ascii -> bool) (s : string) : string :=
  rev_string "" (lstrip_by p (rev_string "" (lstrip_by p s))).

(** [s.strip()] *)
Definition strip (s : string) : string := strip_by isspace s.

(** [s.strip(chars)] *)
Definition strip_chars (chars s : string) : string :=
  strip_by (fun c => contains (String c "") chars) s.

End Str.

(** ** The fragment of Python's [re] used by the program

    A backtracking matcher with Python's priorities: a greedy repetition
    tries the longest run first, a lazy one the shortest, an optional item is
    tried before it is skipped, and [search] returns the first match at the
    leftmost position that has one.  Repetition is over a character class,
    which is the only kind of repetition in the program's patterns. *)

Module Re.

Inductive re : Type :=
| Lit (s : string)                                  (* literal text *)
| Opt (r : re)                                      (* (?:r)?  *)
| Rep (greedy : bool) (least : nat) (cls : ascii -> bool)
                                                    (* c* c+ c*? c+? *)
| Grp (r : re)                                      (* ( r )   *)
| Bol                                               (* ^ with re.MULTILINE *)
| Cat (r1 r2 : re).

(** [.] without DOTALL, [\s], [\w] and a negated singleton. *)
Definition dot (c : ascii) : bool := negb (Ascii.eqb c Str.LF).
Definition space : ascii -> bool := Str.isspace.
Definition word : ascii -> bool := Str.isword.
Definition other_than (a : ascii) (c : ascii) : bool := negb (Ascii.eqb c a).

(** Spans of the groups closed so far, as offsets from the start of the
    match; the program's patterns have one group each. *)
Definition spans := list (nat * nat).

(** A continuation receives the character before the cursor, the offset of
    the cursor from the start of the match, the rest of the input and the
    spans. *)
Definition cont (R : Type) := option ascii -> nat -> string -> spans -> option R.

Fixpoint lit {R} (l : string) (prev : option ascii) (n : nat) (s : string)
    (g : spans) (k : cont R) : option R :=
  match l with
  | EmptyString => k prev n s g
  | String a l' =>
      match s with
      | EmptyString => None
      | String c s' =>
          if Ascii.eqb a c then lit l' (Some c) (S n) s' g k else None
      end
  end.

Fixpoint rep {R} (greedy : bool) (least : nat) (cls : ascii -> bool)
    (prev : option ascii) (n : nat) (s : string) (g : spans) (k : cont R)
  : option R :=
  let stop := match least with O => k prev n s g | S _ => None end in
  match s with
  | EmptyString => stop
  | String c s' =>
      if cls c then
        let more := rep greedy (Nat.pred least) cls (Some c) (S n) s' g k in
        if greedy
        then match more with Some r => Some r | None => stop end
        else match stop with Some r => Some r | None => more end
      else stop
  end.

Fixpoint run {R} (r : re) (prev : option ascii) (n : nat) (s : string)
    (g : spans) (k : cont R) : option R :=
  match r with
  | Lit l => lit l prev n s g k
  | Opt r1 =>
      match run r1 prev n s g k with
      | Some x => Some x
      | None => k prev n s g
      end
  | Rep greedy least cls => rep greedy least cls prev n s g k
  | Grp r1 => run r1 prev n s g (fun p n' s' g' => k p n' s' (g' ++ [(n, n')])%list)
  | Bol =>
      match prev with
      | None => k prev n s g
      | Some c => if Ascii.eqb c Str.LF then k prev n s g else None
      end
  | Cat r1 r2 => run r1 prev n s g (fun p n' s' g' => run r2 p n' s' g' k)
  end.

(** A match anchored at the cursor: its length and the text of its groups. *)
Record hit : Type := { len : nat; groups : list string }.

Definition match_at (r : re) (prev : option ascii) (s : string) : option hit :=
  run r prev 0 s []
      (fun _ n _ g =>
         Some {| len := n;
                 groups := map (fun ab => substring (fst ab) (snd ab - fst ab) s) g |}).

(** [m.group(i)] for [i >= 1]. *)
Definition group (h : hit) (i : nat) : string := nth (i - 1) (groups h) "".

(** [re.search(r, s)]: the first match at the leftmost position. *)
Fixpoint search_from (r : re) (prev : option ascii) (s : string) : option hit :=
  match match_at r prev s with
  | Some h => Some h
  | None =>
      match s with
      | EmptyString => None
      | String c s' => search_from r (Some c) s'
      end
  end.

Definition search (r : re) (s : string) : option hit := search_from r None s.

(** Replacement templates: literal text and group references. *)
Inductive piece : Type := Txt (s : string) | Ref (i : nat).

Fixpoint expand (t : list piece) (h : hit) : string :=
  match t with
  | [] => ""
  | Txt s :: t' => s ++ expand t' h
  | Ref i :: t' => group h i ++ expand t' h
  end.

(** [re.sub(r, t, s)] for a pattern that matches no empty string: matches
    are taken from the left and do not overlap; text between matches is
    copied.  [skip] counts the characters of a match still to be dropped.
    (An empty match is treated as no match; none of the program's patterns
    has one, see [UrlFacts.scm_hit_nonempty] and [ReFacts.project_hit_nonempty].) *)
Fixpoint sub_from (r : re) (t : list piece) (skip : nat) (prev : option ascii)
    (s : string) : string :=
  match s with
  | EmptyString => EmptyString
  | String c s' =>
      match skip with
      | S k => sub_from r t k (Some c) s'
      | O =>
          match match_at r prev s with
          | Some h =>
              match len h with
              | O => String c (sub_from r t 0 (Some c) s')
              | S k => expand t h ++ sub_from r t k (Some c) s'
              end
          | None => String c (sub_from r t 0 (Some c) s')
          end
      end
  end.

Definition sub (r : re) (t : list piece) (s : string) : string :=
  sub_from r t 0 None s.

End Re.

(** ** Python values that reach the classifier and the report *)

Inductive PyVal : Type :=
| PyNone
| PyBool (b : bool)
| PyInt (z : Z)
| PyStr (s : string).

(** Truth value of an object in a condition. *)
Definition truthy (v : PyVal) : bool :=
  match v with
  | PyNone => false
  | PyBool b => b
  | PyInt z => negb (Z.eqb z 0)
  | PyStr s => negb (String.eqb s "")
  end.

Definition of_opt (o : option string) : PyVal :=
  match o with
  | None => PyNone
  | Some s => PyStr s
  end.

(** ** The environment and the effects of the program

    A request is a [requests.get] to one of the two servers; the history is
    the list of requests sent so far, oldest first.  A server answers a
    request knowing the history, so the same URL may be answered differently
    each time it is fetched.  The decoders of the XML and JSON libraries, the
    conversion of a JSON value to a local [datetime] and [strftime] are taken
    from the environment; a decoder that raises returns [None]. *)

Inductive Server : Type := Jenkins | GitLab.

Record Request : Type := { server : Server; url : string }.

Record Response : Type := { status_code : Z; text : string }.

Definition history := list Request.

(** An XML element as [xml.etree.ElementTree] presents it: tag, attributes,
    the text before the first child ([None] when there is none) and the
    children in document order. *)
Inductive Element : Type :=
| Elem (tag : string) (attrib : list (string * string)) (text : option string)
       (children : list Element).

(** A decoded JSON document; an object is given by its items, one per key. *)
Inductive Json : Type :=
| JNull
| JBool (b : bool)
| JNum (n : Z)
| JStr (s : string)
| JArr (items : list Json)
| JObj (fields : list (string * Json)).

(** A naive local [datetime], in microseconds on its own time line. *)
Definition datetime := Z.

Record Env : Type := {
  (* the answer of a server to a request, given the requests before it *)
  respond : history -> Request -> Response;
  (* ET.fromstring; None when it raises ParseError *)
  fromstring : string -> option Element;
  (* response.json(); None when it raises *)
  json : string -> option Json;
  (* datetime.fromtimestamp(v / 1000) for a decoded value v; None when the
     division or the conversion raises *)
  fromtimestamp_ms : Json -> option datetime;
  (* datetime.now(), read after the given requests *)
  now : history -> datetime;
  (* d.strftime("%Y-%m-%d %H:%M:%S") *)
  strftime : datetime -> string
}.

Inductive exn : Type :=
| AttributeError      (* a str method called on None *)
| ParseError          (* ET.fromstring on a malformed document *)
| JSONDecodeError     (* response.json() on a malformed body *)
| TypeError           (* membership or subscript on a JSON value without it *)
| ValueError.         (* the timestamp cannot be converted *)

Inductive result (A : Type) : Type :=
| Ok (a : A)
| Raise (e : exn).
Arguments Ok {A} a.
Arguments Raise {A} e.

(** Computations that send requests and may raise. *)
Definition M (A : Type) : Type := history -> result (A * history).

Definition ret {A} (a : A) : M A := fun h => Ok (a, h).

Definition raise {A} (e : exn) : M A := fun _ => Raise e.

Definition bind {A B} (c : M A) (f : A -> M B) : M B :=
  fun h =>
    match c h with
    | Ok (a, h') => f a h'
    | Raise e => Raise e
    end.

Notation "x <- c ;; f" := (bind c (fun x => f))
  (at level 61, c at next level, right associativity).

(** [requests.get(url, ...)] to a server. *)
Definition get (E : Env) (sv : Server) (u : string) : M Response :=
  fun h =>
    let rq := {| server := sv; url := u |} in
    Ok (respond E h rq, (h ++ [rq])%list).

(** [datetime.now()] *)
Definition clock (E : Env) : M datetime := fun h => Ok (now E h, h).

(** A method of [str] applied to a value that may be [None]. *)
Definition str_of {A} (o : option A) : M A :=
  match o with
  | Some a => ret a
  | None => raise AttributeError
  end.

(** ** The part of [xml.etree.ElementTree] used by the program *)

Module ET.

Definition tag (e : Element) : string := let 'Elem t _ _ _ := e in t.
Definition attrib (e : Element) : list (string * string) :=
  let 'Elem _ a _ _ := e in a.
Definition text (e : Element) : option string := let 'Elem _ _ x _ := e in x.
Definition children (e : Element) : list Element :=
  let 'Elem _ _ _ c := e in c.

(** [e.get(key)] *)
Fixpoint lookup (key : string) (a : list (string * string)) : option string :=
  match a with
  | [] => None
  | (k, v) :: a' => if String.eqb k key then Some v else lookup key a'
  end.

Definition get (e : Element) (key : string) : option string :=
  lookup key (attrib e).

(** [e.iter()]: the element and all elements below it, in document order. *)
Fixpoint iter (e : Element) : list Element :=
  match e with
  | Elem _ _ _ cs => e :: flat_map iter cs
  end.

(** The steps of the paths the program gives to [find]. *)
Inductive step : Type :=
| Descendant (t : string)      (* //t      below the current element *)
| Child (t : string)           (* t  or /t a child of it             *)
| Attr (key value : string).   (* [@key='value']                     *)

Definition has_tag (t : string) (e : Element) : bool := String.eqb (tag e) t.

Definition has_attr (key value : string) (e : Element) : bool :=
  match get e key with
  | Some v => String.eqb v value
  | None => false
  end.

Definition select (st : step) (es : list Element) : list Element :=
  match st with
  | Descendant t => flat_map (fun e => filter (has_tag t) (tl (iter e))) es
  | Child t => flat_map (fun e => filter (has_tag t) (children e)) es
  | Attr key value => filter (has_attr key value) es
  end.

(** [e.find(path)]: the first element the path selects, or [None]. *)
Definition find (path : list step) (e : Element) : option Element :=
  hd_error (fold_left (fun es st => select st es) path [e]).

End ET.

(** ** [JenkinsAPI]: what is read of a job *)

Module JenkinsAPI.

Definition CpsFlowDefinition : string :=
  "org.jenkinsci.plugins.workflow.cps.CpsFlowDefinition".
Definition CpsScmFlowDefinition : string :=
  "org.jenkinsci.plugins.workflow.cps.CpsScmFlowDefinition".
Definition GitSCM : string := "hudson.plugins.git.GitSCM".

(** What each reader does with the parsed configuration document.  A
    result taken from an element is its [text], which is [None] for an
    element without text. *)
Definition pipeline_type_of (root : Element) : string :=
  match ET.find [ET.Descendant "definition"; ET.Attr "class" CpsFlowDefinition] root with
  | Some _ => "Pipeline Script"
  | None =>
      match ET.find [ET.Descendant "definition"; ET.Attr "class" CpsScmFlowDefinition] root with
      | Some _ => "Pipeline Script from SCM"
      | None => "Unknown or not a Pipeline job"
      end
  end.

Definition scm_url_of (root : Element) : option string :=
  match ET.find [ET.Descendant "scm"; ET.Attr "class" GitSCM] root with
  | Some scm =>
      match ET.find [ET.Child "userRemoteConfigs"] scm with
      | Some user_remote_configs =>
          match ET.find [ET.Descendant "url"] user_remote_configs with
          | Some url_element => ET.text url_element
          | None => Some "NA"
          end
      | None => Some "NA"
      end
  | None => Some "NA"
  end.

Definition jenkinsfile_path_of (root : Element) : option string :=
  match ET.find [ET.Descendant "definition"; ET.Child "scriptPath"] root with
  | Some script_path => ET.text script_path
  | None => Some "NA"
  end.

Definition branch_specifier_of (root : Element) : option string :=
  match ET.find [ET.Descendant "scm"; ET.Attr "class" GitSCM; ET.Child "branches"] root with
  | Some branches =>
      match ET.find [ET.Descendant "name"] branches with
      | Some branch_specifier => ET.text branch_specifier
      | None => Some "**"
      end
  | None => Some "**"
  end.

(** ['timestamp' in build_data] *)
Definition has_timestamp (build_data : Json) : result bool :=
  match build_data with
  | JObj fields => Ok (existsb (fun kv => String.eqb (fst kv) "timestamp") fields)
  | JArr items =>
      Ok (existsb (fun v => match v with
                            | JStr s => String.eqb s "timestamp"
                            | _ => false
                            end) items)
  | JStr s => Ok (Str.contains "timestamp" s)
  | _ => Raise TypeError
  end.

(** [build_data['timestamp']] *)
Definition timestamp_of (build_data : Json) : result Json :=
  match build_data with
  | JObj fields =>
      match find (fun kv => String.eqb (fst kv) "timestamp") fields with
      | Some kv => Ok (snd kv)
      | None => Raise TypeError
      end
  | _ => Raise TypeError
  end.

Section WithEnv.
Variable E : Env.

(** The request every reader of the configuration starts with: the parsed
    document when the server answers 200, [None] on another status. *)
Definition config_xml (job_url : string) : M (option Element) :=
  response <- get E Jenkins (job_url ++ "config.xml") ;;
  if (status_code response =? 200)%Z then
    match fromstring E (text response) with
    | Some root => ret (Some root)
    | None => raise ParseError
    end
  else ret None.

Definition get_pipeline_type (job_url : string) : M string :=
  config <- config_xml job_url ;;
  match config with
  | Some root => ret (pipeline_type_of root)
  | None => ret "Unknown or not a Pipeline job"
  end.

Definition get_scm_url (job_url : string) : M (option string) :=
  config <- config_xml job_url ;;
  match config with
  | Some root => ret (scm_url_of root)
  | None => ret (Some "NA")
  end.

Definition get_jenkinsfile_path (job_url : string) : M (option string) :=
  config <- config_xml job_url ;;
  match config with
  | Some root => ret (jenkinsfile_path_of root)
  | None => ret (Some "NA")
  end.

Definition get_branch_specifier (job_url : string) : M (option string) :=
  config <- config_xml job_url ;;
  match config with
  | Some root => ret (branch_specifier_of root)
  | None => ret (Some "**")
  end.

(** What [fetch_last_run] does with the decoded body of a 200 answer. *)
Definition last_run_of (build_data : Json) : result (option datetime) :=
  match has_timestamp build_data with
  | Raise e => Raise e
  | Ok false => Ok None
  | Ok true =>
      match timestamp_of build_data with
      | Raise e => Raise e
      | Ok timestamp_ms =>
          match fromtimestamp_ms E timestamp_ms with
          | Some last_run => Ok (Some last_run)
          | None => Raise ValueError
          end
      end
  end.

Definition fetch_last_run (job_url : string) : M (option datetime) :=
  response <- get E Jenkins (job_url ++ "lastBuild/api/json") ;;
  if (status_code response =? 200)%Z then
    match json E (text response) with
    | None => raise JSONDecodeError
    | Some build_data =>
        match last_run_of build_data with
        | Ok last_run => ret last_run
        | Raise e => raise e
        end
    end
  else ret None.

End WithEnv.
End JenkinsAPI.

(** ** [GitLabAPI]: the repository client and the Jenkinsfile classifier *)

Module GitLabAPI.
Import Re.

(** r'(?:git@)?(.*?):' *)
Definition scm_re : re :=
  Cat (Opt (Lit "git@")) (Cat (Grp (Rep false 0 dot)) (Lit ":")).

(** r'https://\1/' *)
Definition scm_template : list piece := [Txt "https://"; Ref 1; Txt "/"].

Definition convert_scm_url (scm_url : string) : string :=
  if Str.startswith "https://" scm_url then scm_url
  else Re.sub scm_re scm_template scm_url.

Definition gitlab_host : string :=
  "https://git.org-country.internal.replace-organization-name.com/".

(** The pattern for a URL that ends in .git: the host prefix, group 1 a
    greedy run of any characters but newline, then the text .git *)
Definition project_git_re : re :=
  Cat (Lit gitlab_host) (Cat (Grp (Rep true 0 dot)) (Lit ".git")).

(** The pattern for the other URLs: the host prefix, then group 1 a greedy
    run of any characters but newline *)
Definition project_re : re :=
  Cat (Lit gitlab_host) (Grp (Rep true 0 dot)).

(** The address of the raw file, as the loop body builds it. *)
Definition jenkinsfile_url (scm_url jenkinsfile_path_encoded branch : string)
  : string :=
  let pattern :=
    if Str.endswith ".git" scm_url then project_git_re else project_re in
  let project_path := Re.sub pattern [Ref 1] scm_url in
  let project_path_encoded := Str.replace "/" "%2F" project_path in
  gitlab_host ++ "api/v4/projects/" ++ project_path_encoded
    ++ "/repository/files/" ++ jenkinsfile_path_encoded
    ++ "/raw?ref=" ++ branch.

Section WithEnv.
Variable E : Env.

(** The loop over [branches_to_try]; falling off its end returns [None]. *)
Fixpoint try_branches (scm_url jenkinsfile_path_encoded : string)
    (branches_to_try : list string) : M (option string) :=
  match branches_to_try with
  | [] => ret None
  | branch :: rest =>
      response <- get E GitLab
                    (jenkinsfile_url scm_url jenkinsfile_path_encoded branch) ;;
      if (status_code response =? 200)%Z then ret (Some (text response))
      else if Str.contains "Project Not Found" (text response)
           then ret (Some "Project Not Found")
      else if Str.contains "File Not Found" (text response)
           then ret (Some "Jenkinsfile Not Found")
      else if Str.contains "Commit Not Found" (text response)
           then ret (Some "Branch Not Found")
      else try_branches scm_url jenkinsfile_path_encoded rest
  end.

(** [branch_specifier in ["**", "Any"]] *)
Definition is_wildcard (branch_specifier : option string) : bool :=
  match branch_specifier with
  | Some b => String.eqb b "**" || String.eqb b "Any"
  | None => false
  end.

Definition get_jenkinsfile_content (scm_url : string)
    (jenkinsfile_path branch_specifier : option string) (job_name : string)
  : M (option string) :=
  if String.eqb scm_url "NA"
     || match jenkinsfile_path with
        | Some p => String.eqb p "NA"
        | None => false
        end
  then ret None
  else
    branches_to_try <-
      (if is_wildcard branch_specifier then ret ["main"; "master"]
       else b <- str_of branch_specifier ;; ret [Str.replace "*/" "" b]) ;;
    path <- str_of jenkinsfile_path ;;
    let jenkinsfile_path_encoded := Str.replace "/" "%2F" path in
    try_branches scm_url jenkinsfile_path_encoded branches_to_try.

End WithEnv.

Definition check_modularity (jenkinsfile_content : option string) : PyVal :=
  match jenkinsfile_content with
  | None => PyStr "Failed to fetch Jenkinsfile"
  | Some content =>
      if Str.contains "cicd-modular-library" content
      then PyBool true else PyBool false
  end.

(** r"@Library\(\['([^\]]+?)'\]\)_" *)
Definition library_re : re :=
  Cat (Lit "@Library(['")
      (Cat (Grp (Rep false 1 (other_than "]"%char))) (Lit "'])_")).

Definition parse_shared_library (jenkinsfile_content : PyVal) : string :=
  match jenkinsfile_content with
  | PyStr content =>
      match Re.search library_re content with
      | Some library_match =>
          let libraries := Str.split "," (group library_match 1) in
          let libraries :=
            map Str.strip
                (filter (fun lib =>
                           negb (String.eqb (Str.strip lib) "cicd-modular-library"))
                        libraries) in
          match libraries with
          | lib :: _ => Str.strip_chars "'" lib
          | [] => "No Shared Library"
          end
      | None => "No Shared Library"
      end
  | _ => "No Shared Library"
  end.

(** r'^\s*(\w+)\s*\(' with re.MULTILINE *)
Definition module_re : re :=
  Cat Bol (Cat (Rep true 0 space)
               (Cat (Grp (Rep true 1 word)) (Cat (Rep true 0 space) (Lit "(")))).

Definition parse_module_name (jenkinsfile_content : PyVal) : string :=
  match jenkinsfile_content with
  | PyStr content =>
      match Re.search module_re content with
      | Some module_match =>
          if negb (String.eqb (group module_match 1) "Library")
          then group module_match 1
          else "No Module Detected"
      | None => "No Module Detected"
      end
  | _ => "No Module Detected"
  end.

End GitLabAPI.

(** ** [helpers] *)

Module Helpers.

(** [timedelta(days=90)] in microseconds *)
Definition days (n : Z) : Z := (n * 86400 * 1000000)%Z.

(** [is_older_than_three_months(last_run)], with the reading [now] of
    [datetime.now()] made inside it. *)
Definition is_older_than_three_months (now : datetime)
    (last_run : option datetime) : option bool :=
  match last_run with
  | None => None
  | Some t =>
      let three_months_ago := (now - days 90)%Z in
      Some (t <? three_months_ago)%Z
  end.

Definition header : list PyVal :=
  map PyStr
      ["job_name"; "path"; "job_url"; "team"; "pipeline_type"; "scm_url";
       "jenkinsfile_path"; "branch_specifier"; "is_modular";
       "shared_library"; "shared_library_module"; "last_run";
       "Is_last_run_old"].

(** [save_to_csv(jobs)]: the records given to the CSV writer, in the order
    they are written; a record is the list of its cells. *)
Definition save_to_csv (jobs : list (list PyVal)) : list (list PyVal) :=
  header :: jobs.

End Helpers.

(** ** The loop of [main] *)

Module Main.

(** A discovered job: [(job_name, current_path, job_url)]. *)
Definition Job : Type := string * string * string.

(** The tuple appended to [processed_jobs], field by field. *)
Record ReportRow : Type := {
  job_name : string;
  current_path : string;
  job_url : string;
  team : string;
  pipeline_type : string;
  scm_url : string;
  jenkinsfile_path : option string;
  branch_specifier : option string;
  is_modular : PyVal;
  shared_library : string;
  module_name : string;
  last_run_str : string;
  older_than_three_months : PyVal
}.

Definition job_of (row : ReportRow) : Job :=
  (job_name row, current_path row, job_url row).

(** The cells of the record written for a row. *)
Definition cells (row : ReportRow) : list PyVal :=
  [PyStr (job_name row); PyStr (current_path row); PyStr (job_url row);
   PyStr (team row); PyStr (pipeline_type row); PyStr (scm_url row);
   of_opt (jenkinsfile_path row); of_opt (branch_specifier row);
   is_modular row; PyStr (shared_library row); PyStr (module_name row);
   PyStr (last_run_str row); older_than_three_months row].

(** [pipeline_type in ["Pipeline Script", "Unknown or not a Pipeline job"]] *)
Definition not_from_scm (pipeline_type : string) : bool :=
  String.eqb pipeline_type "Pipeline Script"
  || String.eqb pipeline_type "Unknown or not a Pipeline job".

Definition of_optbool (o : option bool) : PyVal :=
  match o with
  | None => PyNone
  | Some b => PyBool b
  end.

Section WithEnv.
Variable E : Env.

(** The body of the loop, for one job. *)
Definition process_job (job : Job) : M ReportRow :=
  let '(job_name, current_path, job_url) := job in
  pipeline_type <- JenkinsAPI.get_pipeline_type E job_url ;;
  scm_url <- JenkinsAPI.get_scm_url E job_url ;;
  scm_url <- (u <- str_of scm_url ;; ret (GitLabAPI.convert_scm_url u)) ;;
  jenkinsfile_path <- JenkinsAPI.get_jenkinsfile_path E job_url ;;
  branch_specifier <- JenkinsAPI.get_branch_specifier E job_url ;;
  let shared_library := "NA" in
  let module_name := "NA" in
  classified <-
    (if not_from_scm pipeline_type then
       ret (PyBool false, shared_library, module_name)
     else
       jenkinsfile_content <-
         GitLabAPI.get_jenkinsfile_content E scm_url jenkinsfile_path
           branch_specifier job_name ;;
       let is_modular := GitLabAPI.check_modularity jenkinsfile_content in
       if truthy is_modular then
         let shared_library :=
           GitLabAPI.parse_shared_library (of_opt jenkinsfile_content) in
         if String.eqb shared_library "No Shared Library"
         then ret (is_modular, shared_library, "NA")
         else ret (is_modular, shared_library,
                   GitLabAPI.parse_module_name (of_opt jenkinsfile_content))
       else ret (is_modular, shared_library, module_name)) ;;
  let '(is_modular, shared_library, module_name) := classified in
  let team := hd "" (Str.split " -> " current_path) in
  last_run <- JenkinsAPI.fetch_last_run E job_url ;;
  run <-
    match last_run with
    | None => ret ("No Runs", PyBool true)
    | Some t =>
        let last_run_str := strftime E t in
        now <- clock E ;;
        ret (last_run_str,
             of_optbool (Helpers.is_older_than_three_months now (Some t)))
    end ;;
  let '(last_run_str, older_than_three_months) := run in
  ret {| job_name := job_name; current_path := current_path;
         job_url := job_url; team := team;
         pipeline_type := pipeline_type; scm_url := scm_url;
         jenkinsfile_path := jenkinsfile_path;
         branch_specifier := branch_specifier;
         is_modular := is_modular; shared_library := shared_library;
         module_name := module_name; last_run_str := last_run_str;
         older_than_three_months := older_than_three_months |}.

(** [for ... in enumerate(jobs, start=1)], appending to [processed_jobs]. *)
Fixpoint loop (jobs : list Job) (processed_jobs : list ReportRow)
  : M (list ReportRow) :=
  match jobs with
  | [] => ret processed_jobs
  | job :: rest =>
      row <- process_job job ;;
      loop rest (processed_jobs ++ [row])%list
  end.

(** From the list of discovered jobs to the records of the CSV file. *)
Definition main (jobs : list Job) : M (list (list PyVal)) :=
  processed_jobs <- loop jobs [] ;;
  ret (Helpers.save_to_csv (map cells processed_jobs)).

End WithEnv.
End Main.

(** ** Start-up and discovery: [JenkinsAPI.get_crumb], [JenkinsAPI.fetch_jobs]
    and the whole of [main]

    These raise exceptions the loop does not, and [fetch_jobs] recurses on
    what the server answers, so its model takes fuel.  A run ends with a
    value, with an exception, or beyond what the model follows: out of fuel,
    or at a job whose name or URL is not a JSON string (Python would format
    the value into paths and addresses). *)

Inductive error : Type :=
| Builtin (e : exn)
| KeyError (key : string)          (* subscript of a dict without the key *)
| Failure (message : string).      (* raise Exception(message) *)

Inductive gap : Type := OutOfFuel | NotAString.

Inductive outcome (A : Type) : Type :=
| Done (a : A) (h : history)
| Failed (e : error)
| Beyond (g : gap).
Arguments Done {A} a h.
Arguments Failed {A} e.
Arguments Beyond {A} g.

Definition Run (A : Type) : Type := history -> outcome A.

Definition done {A} (a : A) : Run A := fun h => Done a h.

Definition fail {A} (e : error) : Run A := fun _ => Failed e.

Definition andthen {A B} (c : Run A) (f : A -> Run B) : Run B :=
  fun h =>
    match c h with
    | Done a h' => f a h'
    | Failed e => Failed e
    | Beyond g => Beyond g
    end.

Notation "x <~ c ;; f" := (andthen c (fun x => f))
  (at level 61, c at next level, right associativity).

(** A computation of the loop, run at start-up level. *)
Definition lift {A} (c : M A) : Run A :=
  fun h =>
    match c h with
    | Ok (a, h') => Done a h'
    | Raise e => Failed (Builtin e)
    end.

Definition of_result {A} (r : result A) : Run A :=
  match r with
  | Ok a => done a
  | Raise e => fail (Builtin e)
  end.

Module Discovery.

(** [d.get(key, default)]: a method of dicts only. *)
Definition dict_get (key : string) (default : Json) (d : Json) : Run Json :=
  match d with
  | JObj fields =>
      match find (fun kv => String.eqb (fst kv) key) fields with
      | Some kv => done (snd kv)
      | None => done default
      end
  | _ => fail (Builtin AttributeError)
  end.

Fixpoint chars (s : string) : list Json :=
  match s with
  | EmptyString => []
  | String c s' => JStr (String c "") :: chars s'
  end.

(** [for x in v]: the items of a list, the keys of a dict, the characters
    of a string; other values are not iterable. *)
Definition iterate (v : Json) : Run (list Json) :=
  match v with
  | JArr items => done items
  | JObj fields => done (map (fun kv => JStr (fst kv)) fields)
  | JStr s => done (chars s)
  | _ => fail (Builtin TypeError)
  end.

(** [v[key]] for a string [key]: a dict has the key or raises KeyError;
    other values raise TypeError. *)
Definition subscript (v : Json) (key : string) : Run Json :=
  match v with
  | JObj fields =>
      match find (fun kv => String.eqb (fst kv) key) fields with
      | Some kv => done (snd kv)
      | None => fail (KeyError key)
      end
  | _ => fail (Builtin TypeError)
  end.

(** [key in d], for a value that a subscript has shown to be a dict. *)
Definition has_key (key : string) (d : Json) : bool :=
  match d with
  | JObj fields => existsb (fun kv => String.eqb (fst kv) key) fields
  | _ => false
  end.

(** The model follows a name or a URL that is a string. *)
Definition followed (v : Json) : Run string :=
  match v with
  | JStr s => done s
  | _ => fun _ => Beyond NotAString
  end.

Definition tree_query : string := "api/json?tree=jobs[name,url,jobs[name,url]]".

Section WithEnv.
Variable E : Env.

(** [JenkinsAPI.get_crumb], called by [JenkinsAPI.__init__]. *)
Definition get_crumb (jenkins_url : string) : Run Json :=
  response <~ lift (get E Jenkins (jenkins_url ++ "/crumbIssuer/api/json")) ;;
  if (status_code response =? 200)%Z then
    match json E (text response) with
    | Some body => subscript body "crumb"
    | None => fail (Builtin JSONDecodeError)
    end
  else fail (Failure "Failed to fetch Jenkins crumb").

(** The loop of [fetch_jobs] over the listed jobs; [nested] is the recursive
    call. *)
Fixpoint each_job (nested : string -> string -> Run (list Main.Job))
    (parent_path : string) (jobs : list Json) (all_jobs : list Main.Job)
  : Run (list Main.Job) :=
  match jobs with
  | [] => done all_jobs
  | job :: rest =>
      job_name <~ (v <~ subscript job "name" ;; followed v) ;;
      job_url <~ (v <~ subscript job "url" ;; followed v) ;;
      let current_path :=
        if negb (String.eqb parent_path "")
        then parent_path ++ " -> " ++ job_name
        else job_name in
      if has_key "jobs" job then
        let nested_api_url := job_url ++ tree_query in
        below <~ nested nested_api_url current_path ;;
        each_job nested parent_path rest (all_jobs ++ below)%list
      else
        each_job nested parent_path rest
                 (all_jobs ++ [(job_name, current_path, job_url)])%list
  end.

(** [JenkinsAPI.fetch_jobs(api_url, parent_path)].  The status of the answer
    is not looked at. *)
Fixpoint fetch_jobs (fuel : nat) (api_url parent_path : string)
  : Run (list Main.Job) :=
  match fuel with
  | O => fun _ => Beyond OutOfFuel
  | S fuel' =>
      response <~ lift (get E Jenkins api_url) ;;
      jobs_data <~ match json E (text response) with
                   | Some v => done v
                   | None => fail (Builtin JSONDecodeError)
                   end ;;
      jobs <~ dict_get "jobs" (JArr []) jobs_data ;;
      items <~ iterate jobs ;;
      each_job (fetch_jobs fuel') parent_path items []
  end.

(** [main], from the loaded configuration on: the crumb, the listing, the
    loop and the file. *)
Definition main (fuel : nat) (jenkins_url : string) : Run (list (list PyVal)) :=
  crumb <~ get_crumb jenkins_url ;;
  let base_url := jenkins_url ++ "/" ++ tree_query in
  jobs <~ fetch_jobs fuel base_url "" ;;
  lift (Main.main E jobs).

End WithEnv.
End Discovery.

(** * Vocabulary of the statements *)

(** ** URLs: where the first colon of a string is *)

Module Url.
Import Re.

(** The number of characters before the first colon of [s], when [s] has a
    colon and no newline comes before it. *)
Fixpoint first_colon (s : string) : option nat :=
  match s with
  | EmptyString => None
  | String c s' =>
      if Ascii.eqb c ":" then Some 0
      else if Ascii.eqb c Str.LF then None
      else option_map S (first_colon s')
  end.

(** [s] has no colon, or no newline comes before its first colon. *)
Definition one_line_to_colon (s : string) : bool :=
  match first_colon s with
  | Some _ => true
  | None => negb (Str.contains ":" s)
  end.

(** The match of the SCM pattern anchored at the start of [s], written
    without the matcher. *)
Definition scm_hit (s : string) : option hit :=
  if Str.startswith "git@" s then
    match first_colon (substring 4 (String.length s - 4) s) with
    | Some j => Some {| len := 5 + j; groups := [substring 4 j s] |}
    | None => None
    end
  else
    match first_colon s with
    | Some j => Some {| len := S j; groups := [substring 0 j s] |}
    | None => None
    end.

End Url.

(** ** Fetching: the request of an attempt and how an attempt ends *)

Module Fetch.

(** The request [get_jenkinsfile_content] sends for a branch. *)
Definition raw_request (scm_url path branch : string) : Request :=
  {| server := GitLab;
     url := GitLabAPI.jenkinsfile_url scm_url (Str.replace "/" "%2F" path) branch |}.

(** The three texts looked for in the body of a failed attempt, with the
    value returned for each. *)
Definition marker (body : string) : option string :=
  if Str.contains "Project Not Found" body then Some "Project Not Found"
  else if Str.contains "File Not Found" body then Some "Jenkinsfile Not Found"
  else if Str.contains "Commit Not Found" body then Some "Branch Not Found"
  else None.

(** What an attempt makes the function return: the body on status 200, the
    value of a marker found in a failed answer, and [None] when the next
    branch, if any, is to be tried. *)
Definition outcome (r : Response) : option string :=
  if (status_code r =? 200)%Z then Some (text r) else marker (text r).

(** The attempt ends the loop. *)
Definition settles (r : Response) : bool :=
  (status_code r =? 200)%Z
  || match marker (text r) with Some _ => true | None => false end.

End Fetch.

(** ** Answers of the Jenkins server that the readers can use *)

Module Answers.

Definition config_request (job_url : string) : Request :=
  {| server := Jenkins; url := job_url ++ "config.xml" |}.

Definition last_build_request (job_url : string) : Request :=
  {| server := Jenkins; url := job_url ++ "lastBuild/api/json" |}.

(** A configuration body that parses, in which the elements whose text the
    readers return have text. *)
Definition config_readable (E : Env) (body : string) : Prop :=
  exists root,
    fromstring E body = Some root
    /\ JenkinsAPI.scm_url_of root <> None
    /\ JenkinsAPI.jenkinsfile_path_of root <> None
    /\ JenkinsAPI.branch_specifier_of root <> None.

(** A last-build body that decodes and whose time stamp, if it has one,
    converts. *)
Definition last_build_readable (E : Env) (body : string) : Prop :=
  exists build_data last_run,
    json E body = Some build_data
    /\ JenkinsAPI.last_run_of E build_data = Ok last_run.

(** Every answer with status 200 that Jenkins gives about the job is
    readable.  Answers with another status, and all answers of GitLab, are
    not constrained. *)
Definition readable (E : Env) (job_url : string) : Prop :=
  forall h,
    (status_code (respond E h (config_request job_url)) = 200%Z ->
     config_readable E (text (respond E h (config_request job_url))))
    /\ (status_code (respond E h (last_build_request job_url)) = 200%Z ->
        last_build_readable E (text (respond E h (last_build_request job_url)))).


(** The requests one pass of the loop body sends to Jenkins before it
    classifies the job. *)
Definition config_requests (job_url : string) : history :=
  [config_request job_url; config_request job_url;
   config_request job_url; config_request job_url].

End Answers.

(** ** Environments used to exercise the statements *)

Module Demo.

(** Servers that give every request the same answer; nothing decodes. *)
Definition constant (r : Response) : Env :=
  {| respond := fun _ _ => r;
     fromstring := fun _ => None;
     json := fun _ => None;
     fromtimestamp_ms := fun _ => None;
     now := fun _ => 0%Z;
     strftime := fun _ => "" |}.

Definition unavailable : Env :=
  constant {| status_code := 503; text := "Service Unavailable" |}.

Definition branch_missing : Env :=
  constant {| status_code := 404; text := "404 Commit Not Found" |}.

(** The configuration of a job defined from SCM. *)
Definition scm_config : Element :=
  Elem "flow-definition" [("plugin", "workflow-job")] None
    [Elem "definition" [("class", JenkinsAPI.CpsScmFlowDefinition)] None
       [Elem "scm" [("class", JenkinsAPI.GitSCM)] None
          [Elem "userRemoteConfigs" [] None
             [Elem "hudson.plugins.git.UserRemoteConfig" [] None
                [Elem "url" []
                   (Some "git@git.org-country.internal.replace-organization-name.com:team/app.git")
                   []]];
           Elem "branches" [] None
             [Elem "hudson.plugins.git.BranchSpec" [] None
                [Elem "name" [] (Some "**") []]]];
        Elem "scriptPath" [] (Some "ci/Jenkinsfile") []]].

(** Jenkins answers every request with status 200, describes every job by
    [scm_config] and reports a last build; GitLab always answers [gitlab]. *)
Definition scm_jobs (gitlab : Response) : Env :=
  {| respond := fun _ rq =>
       match server rq with
       | Jenkins => {| status_code := 200; text := "ok" |}
       | GitLab => gitlab
       end;
     fromstring := fun _ => Some scm_config;
     json := fun _ => Some (JObj [("timestamp", JNum 1700000000000)]);
     fromtimestamp_ms := fun v =>
       match v with
       | JNum n => Some (n * 1000)%Z
       | _ => None
       end;
     now := fun _ => 1710000000000000%Z;
     strftime := fun _ => "2023-11-14 22:13:20" |}.

Definition unauthorized : Response :=
  {| status_code := 401; text := "401 Unauthorized" |}.

End Demo.

(** A Jenkins with a folder inside a folder and two leaves beside them. *)
Module DemoTree.

Definition leaf (name url : string) : Json :=
  JObj [("name", JStr name); ("url", JStr url)].

Definition folder (name url : string) : Json :=
  JObj [("name", JStr name); ("url", JStr url); ("jobs", JArr [])].

Definition listing (jobs : list Json) : Json := JObj [("jobs", JArr jobs)].

Definition decode (body : string) : option Json :=
  if String.eqb body ("J/" ++ Discovery.tree_query) then
    Some (listing [folder "platform" "J/job/platform/"; leaf "nightly" "J/job/nightly/"])
  else if String.eqb body ("J/job/platform/" ++ Discovery.tree_query) then
    Some (listing [folder "data" "J/job/platform/job/data/";
                   leaf "deploy" "J/job/platform/job/deploy/"])
  else if String.eqb body ("J/job/platform/job/data/" ++ Discovery.tree_query) then
    Some (listing [leaf "ingest" "J/job/platform/job/data/job/ingest/"])
  else if String.eqb body "J/crumbIssuer/api/json" then
    Some (JObj [("crumb", JStr "c0ffee")])
  else None.

(** Every answer carries the address asked as its body; the crumb and the
    listings are answered with status 200 and decode as above, every other
    request is answered with status 404. *)
Definition env : Env :=
  {| respond := fun _ rq =>
       {| status_code :=
            if Str.endswith "api/json" (url rq)
               || Str.endswith Discovery.tree_query (url rq)
            then (if Str.endswith "lastBuild/api/json" (url rq) then 404 else 200)%Z
            else 404%Z;
          text := url rq |};
     fromstring := fun _ => None;
     json := decode;
     fromtimestamp_ms := fun _ => None;
     now := fun _ => 0%Z;
     strftime := fun _ => "" |}.

(** A Jenkins that describes the job at good/ by [Demo.scm_config] and
    answers the configuration request of every other job with a document
    that does not parse; GitLab answers 401. *)
Definition mixed : Env :=
  {| respond := fun _ rq =>
       match server rq with
       | Jenkins => {| status_code := 200; text := url rq |}
       | GitLab => Demo.unauthorized
       end;
     fromstring := fun body =>
       if String.eqb body "good/config.xml" then Some Demo.scm_config else None;
     json := fun _ => Some (JObj []);
     fromtimestamp_ms := fun _ => None;
     now := fun _ => 0%Z;
     strftime := fun _ => "" |}.

(** The configuration of a job whose URL element is empty. *)
Definition empty_url_config : Element :=
  Elem "flow-definition" [] None
    [Elem "definition" [("class", JenkinsAPI.CpsScmFlowDefinition)] None
       [Elem "scm" [("class", JenkinsAPI.GitSCM)] None
          [Elem "userRemoteConfigs" [] None
             [Elem "hudson.plugins.git.UserRemoteConfig" [] None
                [Elem "url" [] None []]]]]].

Definition empty_url : Env :=
  {| respond := fun _ rq => {| status_code := 200; text := url rq |};
     fromstring := fun _ => Some empty_url_config;
     json := fun _ => Some (JObj []);
     fromtimestamp_ms := fun _ => None;
     now := fun _ => 0%Z;
     strftime := fun _ => "" |}.

End DemoTree.

(** ** Discovery: paths and listings *)

Module Tree.

(** What [fetch_jobs] puts before the name of a job listed under
    [parent_path]. *)
Definition lead (parent_path : string) : string :=
  if negb (String.eqb parent_path "") then parent_path ++ " -> " else "".

(** The value of a key of a JSON object. *)
Definition lookup (key : string) (v : Json) : option Json :=
  match v with
  | JObj fields =>
      option_map snd (find (fun kv => String.eqb (fst kv) key) fields)
  | _ => None
  end.

(** A listed job that is not a folder, with its name and URL. *)
Definition leaf_entry (v : Json) (nu : string * string) : Prop :=
  lookup "name" v = Some (JStr (fst nu))
  /\ lookup "url" v = Some (JStr (snd nu))
  /\ lookup "jobs" v = None.

(** The shape of a discovered path: the lead of the parent, the folders in
    between, the name. *)
Definition shaped (parent_path : string) (job : Main.Job) : Prop :=
  let '(name, path, _) := job in
  exists between, path = lead parent_path ++ between ++ name.

(** The job reported for a leaf listed under [parent_path]. *)
Definition reported (parent_path : string) (nu : string * string) : Main.Job :=
  (fst nu, lead parent_path ++ fst nu, snd nu).

(** The run did not stop for lack of fuel. *)
Definition settled {A} (o : outcome A) : Prop := o <> Beyond OutOfFuel.

End Tree.

(** ** Texts made of one class of characters *)

Module Text.

(** Every character of [s] is in the class [p]. *)
Fixpoint all_of (p : ascii -> bool) (s : string) : bool :=
  match s with
  | EmptyString => true
  | String c s' => p c && all_of p s'
  end.

(** The characters on which the embedding has Python's classes of
    whitespace and of word characters. *)
Definition is_ascii (c : ascii) : bool := Nat.ltb (nat_of_ascii c) 128.

End Text.

(** ** The scan for the module call, as the specification words it

    The specification has [parse_module_name] look for the first place, at
    the start of a line, where whitespace, an identifier, whitespace and an
    opening parenthesis follow one another.  The functions below find that
    place by one pass over the text, without the matcher. *)

Module Call.





(** A text stops a run of the class [p]: it is empty or starts outside
    [p]. *)
Definition stops (p : ascii -> bool) (t : string) : bool :=
  match t with
  | EmptyString => true
  | String c _ => negb (p c)
  end.

(** The shape of a text at which a call starts. *)
Definition shaped (s ind name gap rest : string) : Prop :=
  s = ind ++ name ++ gap ++ "(" ++ rest
  /\ Text.all_of Str.isspace ind = true
  /\ Text.all_of Str.isword name = true
  /\ name <> ""
  /\ Text.all_of Str.isspace gap = true.

End Call.

(** ** The passes of the loop *)

Module Rows.


End Rows.

(** ** The folders of a Jenkins, as a tree *)

Module Folders.

(** A job, or a folder with what it lists. *)
Inductive Node : Type :=
| Leaf (name url : string)
| Folder (name url : string) (children : list Node).

(** The jobs under a node listed under [parent_path], depth first in the
    order listed: the path of a job is made of the names of the folders
    above it and of its own name, joined by arrows. *)
Fixpoint jobs_of (parent_path : string) (nd : Node) : list Main.Job :=
  match nd with
  | Leaf name url => [(name, Tree.lead parent_path ++ name, url)]
  | Folder name url children =>
      flat_map (jobs_of (Tree.lead parent_path ++ name)) children
  end.

(** The addresses asked for below a node, in the order asked. *)
Fixpoint visits (nd : Node) : history :=
  match nd with
  | Leaf _ _ => []
  | Folder _ url children =>
      {| server := Jenkins; url := url ++ Discovery.tree_query |}
        :: flat_map visits children
  end.

(** The number of folders nested in one another under a node. *)
Fixpoint depth (nd : Node) : nat :=
  match nd with
  | Leaf _ _ => 0
  | Folder _ _ children =>
      S (fold_right (fun c d => Nat.max (depth c) d) 0 children)
  end.

(** How a listing shows a node: a dict with the name and the URL, and with
    a jobs key exactly for a folder. *)
Definition listed (v : Json) (nd : Node) : Prop :=
  match nd with
  | Leaf name url => Tree.leaf_entry v (name, url)
  | Folder name url _ =>
      Tree.lookup "name" v = Some (JStr name)
      /\ Tree.lookup "url" v = Some (JStr url)
      /\ Tree.lookup "jobs" v <> None
  end.

(** Whenever it is asked, the address [api_url] answers with a dict whose
    jobs show the nodes, in order. *)
Definition listing_at (E : Env) (api_url : string) (nodes : list Node) : Prop :=
  forall h,
    exists fields items,
      json E (text (respond E h {| server := Jenkins; url := api_url |}))
      = Some (JObj fields)
      /\ match Tree.lookup "jobs" (JObj fields) with
         | Some v => v
         | None => JArr []
         end = JArr items
      /\ Forall2 listed items nodes.

(** The server describes the folders under a node. *)
Fixpoint served (E : Env) (nd : Node) : Prop :=
  match nd with
  | Leaf _ _ => True
  | Folder _ url children =>
      listing_at E (url ++ Discovery.tree_query) children
      /\ fold_right (fun c rest => served E c /\ rest) True children
  end.

End Folders.

(** * Properties *)

(** ** The embedding on sample inputs *)

Module Checks.

Example convert_docstring :
  GitLabAPI.convert_scm_url "git@domain.com:group/project.git"
  = "https://domain.com/group/project.git".
Proof. reflexivity. Qed.

Example convert_protocol :
  GitLabAPI.convert_scm_url "ssh://git@host:group/p.git"
  = "https://ssh/https:////git@host/group/p.git".
Proof. reflexivity. Qed.

Example convert_git_twice :
  GitLabAPI.convert_scm_url "git@git@h:p" = "https://git@h/p".
Proof. reflexivity. Qed.

Example project_path_greedy :
  Re.sub GitLabAPI.project_git_re [Re.Ref 1]
    "https://git.org-country.internal.replace-organization-name.com/a/b.git.git"
  = "a/b.git".
Proof. reflexivity. Qed.

Example raw_file_address :
  GitLabAPI.jenkinsfile_url
    "https://git.org-country.internal.replace-organization-name.com/grp/sub/proj.git"
    "ci%2FJenkinsfile" "main"
  = "https://git.org-country.internal.replace-organization-name.com/api/v4/projects/grp%2Fsub%2Fproj/repository/files/ci%2FJenkinsfile/raw?ref=main".
Proof. reflexivity. Qed.

Example shared_library_one_quoted_list :
  GitLabAPI.parse_shared_library
    (PyStr "x @Library(['cicd-modular-library, team-lib '])_")
  = "team-lib".
Proof. reflexivity. Qed.

Example module_after_blank_lines :
  GitLabAPI.parse_module_name
    (PyStr ("foo" ++ String Str.LF (String Str.LF ("Bar" ++ String Str.LF "("))))
  = "Bar".
Proof. reflexivity. Qed.

Example module_not_at_line_start :
  GitLabAPI.parse_module_name (PyStr "foo bar(") = "No Module Detected".
Proof. reflexivity. Qed.

Example split_path : Str.split " -> " "team -> folder -> job" = ["team"; "folder"; "job"].
Proof. reflexivity. Qed.

Example split_keeps_empty : Str.split "," "a,,b," = ["a"; ""; "b"; ""].
Proof. reflexivity. Qed.

Example replace_every_occurrence : Str.replace "*/" "" "*/feature*/x" = "featurex".
Proof. reflexivity. Qed.

Example readers_on_scm_config :
  JenkinsAPI.pipeline_type_of Demo.scm_config = "Pipeline Script from SCM"
  /\ JenkinsAPI.scm_url_of Demo.scm_config
     = Some "git@git.org-country.internal.replace-organization-name.com:team/app.git"
  /\ JenkinsAPI.jenkinsfile_path_of Demo.scm_config = Some "ci/Jenkinsfile"
  /\ JenkinsAPI.branch_specifier_of Demo.scm_config = Some "**".
Proof. repeat split. Qed.

(** The root is not among its own descendants, and the first element of a
    path is the first in document order. *)
Example find_skips_root :
  let inner := Elem "definition" [("class", "Y")] None
                 [Elem "scriptPath" [] (Some "p1") []] in
  let root := Elem "definition" [("class", "X")] None
                [Elem "a" [] None [inner];
                 Elem "definition" [("class", "X")] None [Elem "scriptPath" [] None []];
                 Elem "scriptPath" [] (Some "top") []] in
  JenkinsAPI.jenkinsfile_path_of root = Some "p1"
  /\ ET.find [ET.Descendant "definition"; ET.Attr "class" "X"] root
     = Some (Elem "definition" [("class", "X")] None [Elem "scriptPath" [] None []]).
Proof. split; reflexivity. Qed.

End Checks.

(** ** Strings *)

Module StrFacts.

Lemma app_assoc (a b c : string) : (a ++ b) ++ c = a ++ (b ++ c).
Proof. induction a; cbn; congruence. Qed.

Lemma app_empty_r (a : string) : a ++ "" = a.
Proof. induction a; cbn; congruence. Qed.

Lemma length_app (a b : string) :
  String.length (a ++ b) = String.length a + String.length b.
Proof. induction a; cbn; congruence. Qed.

Lemma substring_all s : substring 0 (String.length s) s = s.
Proof. induction s; cbn; congruence. Qed.

Lemma substring_prefix a b : substring 0 (String.length a) (a ++ b) = a.
Proof. induction a; cbn; [destruct b; reflexivity|congruence]. Qed.

Lemma startswith_app p s : Str.startswith p s = true -> exists t, s = p ++ t.
Proof.
  revert s. induction p as [|a p IH]; intros s H.
  - exists s. reflexivity.
  - destruct s as [|c s]; [discriminate|]. cbn [Str.startswith] in H.
    apply andb_prop in H. destruct H as [Ha Hp].
    apply Ascii.eqb_eq in Ha. subst c.
    destruct (IH _ Hp) as [t ->]. exists t. reflexivity.
Qed.

Lemma contains_char a c s :
  Str.contains (String a "") (String c s)
  = (Ascii.eqb a c || Str.contains (String a "") s)%bool.
Proof. cbn [Str.contains Str.startswith]. rewrite andb_true_r. reflexivity. Qed.

End StrFacts.

(** ** The matcher *)

Module ReFacts.
Import Re.

(** The cursor only moves forward: a continuation is called at an offset
    that is not before the one the item started at. *)
Lemma lit_forward R l : forall prev n s g (k : cont R) x,
  lit l prev n s g k = Some x ->
  exists p' n' s' g', n + String.length l = n' /\ k p' n' s' g' = Some x.
Proof.
  induction l as [|a l IH]; intros prev n s g k x H; cbn [lit] in H.
  - exists prev, n, s, g. cbn. split; [lia|exact H].
  - destruct s as [|c s]; [discriminate|].
    destruct (Ascii.eqb a c); [|discriminate].
    destruct (IH _ _ _ _ _ _ H) as (p' & n' & s' & g' & Hn & Hk).
    exists p', n', s', g'. cbn [String.length]. split; [lia|exact Hk].
Qed.

Lemma rep_forward R greedy cls : forall s least prev n g (k : cont R) x,
  rep greedy least cls prev n s g k = Some x ->
  exists p' n' s' g', n <= n' /\ k p' n' s' g' = Some x.
Proof.
  assert (Hstop : forall least prev n s g (k : cont R) x,
             match least with O => k prev n s g | S _ => None end = Some x ->
             exists p' n' s' g', n <= n' /\ k p' n' s' g' = Some x).
  { intros [|least] prev n s g k x H; [|discriminate].
    exists prev, n, s, g. split; [lia|exact H]. }
  induction s as [|c s IH]; intros least prev n g k x H; cbn [rep] in H.
  - eapply Hstop; eassumption.
  - destruct (cls c); [|eapply Hstop; eassumption].
    assert (Hmore : forall y,
               rep greedy (Nat.pred least) cls (Some c) (S n) s g k = Some y ->
               exists p' n' s' g', n <= n' /\ k p' n' s' g' = Some y).
    { intros y Hy. destruct (IH _ _ _ _ _ _ Hy) as (p' & n' & s' & g' & Hn & Hk).
      exists p', n', s', g'. split; [lia|exact Hk]. }
    destruct greedy.
    + destruct (rep true (Nat.pred least) cls (Some c) (S n) s g k) as [y|] eqn:Hy.
      * inversion H; subst y. apply Hmore. reflexivity.
      * eapply Hstop; eassumption.
    + destruct (match least with O => k prev n (String c s) g | S _ => None end)
        as [y|] eqn:Hy.
      * inversion H; subst y. eapply Hstop; eassumption.
      * apply Hmore. exact H.
Qed.

Lemma run_forward R r : forall prev n s g (k : cont R) x,
  run r prev n s g k = Some x ->
  exists p' n' s' g', n <= n' /\ k p' n' s' g' = Some x.
Proof.
  induction r as [l|r1 IH1|greedy least cls|r1 IH1| |r1 IH1 r2 IH2];
    intros prev n s g k x H; cbn [run] in H.
  - destruct (lit_forward _ _ _ _ _ _ _ _ H) as (p' & n' & s' & g' & Hn & Hk).
    exists p', n', s', g'. split; [lia|exact Hk].
  - destruct (run r1 prev n s g k) as [y|] eqn:Hy.
    + inversion H; subst y. eapply IH1; eassumption.
    + exists prev, n, s, g. split; [lia|exact H].
  - eapply rep_forward; eassumption.
  - destruct (IH1 _ _ _ _ _ _ H) as (p' & n' & s' & g' & Hn & Hk).
    exists p', n', s', (g' ++ [(n, n')])%list. split; [lia|exact Hk].
  - destruct prev as [c|]; [destruct (Ascii.eqb c Str.LF); [|discriminate]|];
      eexists _, n, s, g; (split; [lia|exact H]).
  - destruct (IH1 _ _ _ _ _ _ H) as (p1 & n1 & s1 & g1 & Hn1 & Hk1).
    destruct (IH2 _ _ _ _ _ _ Hk1) as (p2 & n2 & s2 & g2 & Hn2 & Hk2).
    exists p2, n2, s2, g2. split; [lia|exact Hk2].
Qed.

(** A pattern that starts with a non-empty literal has no empty match. *)
Lemma literal_first_nonempty a l r prev s h :
  match_at (Cat (Lit (String a l)) r) prev s = Some h -> len h <> 0.
Proof.
  unfold match_at. cbn [run]. intros H.
  destruct (lit_forward _ _ _ _ _ _ _ _ H) as (p1 & n1 & s1 & g1 & Hn1 & Hk1).
  destruct (run_forward _ _ _ _ _ _ _ _ Hk1) as (p2 & n2 & s2 & g2 & Hn2 & Hk2).
  inversion Hk2; subst h. cbn [len String.length] in *. lia.
Qed.

Lemma project_hit_nonempty prev s h :
  match_at GitLabAPI.project_git_re prev s = Some h
  \/ match_at GitLabAPI.project_re prev s = Some h ->
  len h <> 0.
Proof.
  intros [H|H]; revert H; apply literal_first_nonempty.
Qed.

End ReFacts.

(** ** The SCM pattern and [convert_scm_url] *)

Module UrlFacts.
Import Re GitLabAPI Url StrFacts.

(** A lazy run of [.] followed by a colon stops at the first colon of the
    line, whatever follows, when the rest of the pattern cannot fail. *)
Lemma lazy_dot_then_colon R (F : nat -> spans -> R) n0 :
  forall s prev n g,
    rep false 0 dot prev n s g
        (fun p' n' s' g' =>
           lit ":" p' n' s' (g' ++ [(n0, n')])%list (fun _ m _ g'' => Some (F m g'')))
    = match first_colon s with
      | Some j => Some (F (S (n + j)) (g ++ [(n0, n + j)])%list)
      | None => None
      end.
Proof.
  induction s as [|c s IH]; intros prev n g; cbn [rep lit first_colon].
  - reflexivity.
  - unfold dot at 1. rewrite (Ascii.eqb_sym c ":").
    destruct (Ascii.eqb ":" c) eqn:Hc.
    + apply Ascii.eqb_eq in Hc. subst c. cbn. rewrite Nat.add_0_r. reflexivity.
    + destruct (Ascii.eqb c Str.LF) eqn:Hn; cbn [negb].
      * reflexivity.
      * rewrite IH. destruct (first_colon s) as [j|]; cbn [option_map]; [|reflexivity].
        rewrite Nat.add_succ_r. reflexivity.
Qed.

Lemma scm_tail s0 : forall s prev n,
  run (Cat (Grp (Rep false 0 dot)) (Lit ":")) prev n s []
      (fun _ m _ g =>
         Some {| len := m;
                 groups := map (fun ab => substring (fst ab) (snd ab - fst ab) s0) g |})
  = match first_colon s with
    | Some j => Some {| len := S (n + j); groups := [substring n j s0] |}
    | None => None
    end.
Proof.
  intros s prev n. cbn [run].
  rewrite (lazy_dot_then_colon _
             (fun m g => {| len := m;
                            groups := map (fun ab => substring (fst ab) (snd ab - fst ab) s0) g |})).
  destruct (first_colon s) as [j|]; [|reflexivity].
  cbn. replace (n + j - n) with j by lia. reflexivity.
Qed.

Lemma first_colon_git s :
  first_colon ("git@" ++ s) = option_map (fun j => 4 + j) (first_colon s).
Proof. cbn. destruct (first_colon s); reflexivity. Qed.

Lemma drop_git t :
  substring 4 (String.length ("git@" ++ t) - 4) ("git@" ++ t) = t.
Proof. cbn. rewrite Nat.sub_0_r. apply substring_all. Qed.

Lemma lit_mismatch R p : forall s prev n g (k : cont R),
  Str.startswith p s = false -> lit p prev n s g k = None.
Proof.
  induction p as [|a p IH]; intros s prev n g k H; [discriminate|].
  destruct s as [|c s]; [reflexivity|]. cbn [lit Str.startswith] in *.
  destruct (Ascii.eqb a c); [|reflexivity]. apply IH. exact H.
Qed.

(** The matcher on the SCM pattern agrees with [scm_hit]. *)
Lemma match_at_scm prev s : match_at scm_re prev s = scm_hit s.
Proof.
  unfold match_at, scm_re, scm_hit.
  change (run (Cat (Opt (Lit "git@")) ?r) prev 0 s [] ?k)
    with (match lit "git@" prev 0 s [] (fun p n' s' g' => run r p n' s' g' k) with
          | Some x => Some x
          | None => run r prev 0 s [] k
          end).
  destruct (Str.startswith "git@" s) eqn:Hp.
  - destruct (startswith_app _ _ Hp) as [t ->].
    cbn [lit append Ascii.eqb Bool.eqb].
    rewrite !scm_tail.
    change (String "g" (String "i" (String "t" (String "@" t)))) with ("git@" ++ t).
    rewrite first_colon_git, drop_git.
    destruct (first_colon t) as [j|]; reflexivity.
  - rewrite scm_tail, (lit_mismatch _ _ _ _ _ _ _ Hp). reflexivity.
Qed.

Lemma scm_hit_nonempty s h : scm_hit s = Some h -> len h <> 0.
Proof.
  unfold scm_hit. intros H.
  destruct (Str.startswith "git@" s);
    [destruct (first_colon _)|destruct (first_colon s)];
    inversion H; subst; cbn; discriminate.
Qed.

Lemma scm_hit_none s : first_colon s = None -> scm_hit s = None.
Proof.
  intros H. unfold scm_hit. rewrite H.
  destruct (Str.startswith "git@" s) eqn:Hp; [|reflexivity].
  destruct (startswith_app _ _ Hp) as [t ->].
  rewrite first_colon_git in H. rewrite drop_git.
  destruct (first_colon t); [discriminate|reflexivity].
Qed.

Lemma scm_hit_some s j :
  first_colon s = Some j -> exists h k, scm_hit s = Some h /\ len h = S k.
Proof.
  intros H. unfold scm_hit.
  destruct (Str.startswith "git@" s) eqn:Hp.
  - destruct (startswith_app _ _ Hp) as [t ->].
    rewrite first_colon_git in H. rewrite drop_git.
    destruct (first_colon t) as [j'|]; [|discriminate].
    eexists _, _. split; reflexivity.
  - rewrite H. eexists _, _. split; reflexivity.
Qed.

Lemma no_colon_first s : Str.contains ":" s = false -> first_colon s = None.
Proof.
  induction s as [|c s IH]; intros H; [reflexivity|].
  rewrite contains_char in H. apply orb_false_elim in H. destruct H as [Hc Hs].
  cbn [first_colon]. rewrite Ascii.eqb_sym, Hc, (IH Hs).
  destruct (Ascii.eqb c Str.LF); reflexivity.
Qed.

Lemma first_colon_app host rest :
  Str.contains ":" host = false ->
  Str.contains (String Str.LF "") host = false ->
  first_colon (host ++ String ":" rest) = Some (String.length host).
Proof.
  induction host as [|c host IH]; intros Hc Hn; [reflexivity|].
  rewrite contains_char in Hc, Hn.
  apply orb_false_elim in Hc, Hn. destruct Hc as [Hc Hc'], Hn as [Hn Hn'].
  cbn [append first_colon String.length].
  rewrite Ascii.eqb_sym, Hc, Ascii.eqb_sym, Hn, (IH Hc' Hn'). reflexivity.
Qed.

(** One step of the substitution at a position outside a match. *)
Lemma sub_scm_step prev c s :
  sub_from scm_re scm_template 0 prev (String c s)
  = match scm_hit (String c s) with
    | Some h =>
        match len h with
        | O => String c (sub_from scm_re scm_template 0 (Some c) s)
        | S k => "https://" ++ group h 1 ++ "/"
                   ++ sub_from scm_re scm_template k (Some c) s
        end
    | None => String c (sub_from scm_re scm_template 0 (Some c) s)
    end.
Proof.
  cbn [sub_from]. rewrite match_at_scm.
  destruct (scm_hit (String c s)) as [h|]; [|reflexivity].
  destruct (len h); [reflexivity|].
  cbn [scm_template expand]. rewrite app_empty_r, !app_assoc.
  reflexivity.
Qed.

Lemma sub_scm_prev k p p' s :
  sub_from scm_re scm_template k p s = sub_from scm_re scm_template k p' s.
Proof.
  destruct s as [|c s]; [reflexivity|]. destruct k as [|k]; [|reflexivity].
  rewrite !sub_scm_step. reflexivity.
Qed.

Lemma sub_scm_skip a : forall p b,
  sub_from scm_re scm_template (String.length a) p (a ++ b)
  = sub_from scm_re scm_template 0 p b.
Proof.
  induction a as [|c a IH]; intros p b; [reflexivity|].
  cbn [String.length append sub_from]. rewrite IH. apply sub_scm_prev.
Qed.

Lemma sub_scm_no_colon s : forall p,
  Str.contains ":" s = false -> sub_from scm_re scm_template 0 p s = s.
Proof.
  induction s as [|c s IH]; intros p H; [reflexivity|].
  rewrite sub_scm_step, (scm_hit_none _ (no_colon_first _ H)).
  rewrite contains_char in H. apply orb_false_elim in H.
  rewrite IH; [reflexivity|apply H].
Qed.

Lemma sub_scm_first_line s j :
  first_colon s = Some j ->
  Str.startswith "https://" (Re.sub scm_re scm_template s) = true.
Proof.
  intros H. destruct s as [|c s]; [discriminate|].
  unfold Re.sub. rewrite sub_scm_step.
  destruct (scm_hit_some _ _ H) as (h & k & -> & ->). reflexivity.
Qed.

Lemma convert_no_colon s : Str.contains ":" s = false -> convert_scm_url s = s.
Proof.
  intros H. unfold convert_scm_url, Re.sub.
  rewrite (sub_scm_no_colon _ _ H). destruct (Str.startswith _ s); reflexivity.
Qed.

Lemma convert_git host path :
  Str.contains ":" host = false ->
  Str.contains (String Str.LF "") host = false ->
  Str.contains ":" path = false ->
  convert_scm_url ("git@" ++ host ++ ":" ++ path) = "https://" ++ host ++ "/" ++ path.
Proof.
  intros Hc Hn Hp. unfold convert_scm_url, Re.sub.
  change ("git@" ++ host ++ ":" ++ path)
    with (String "g" ("it@" ++ host ++ ":" ++ path)).
  cbn [Str.startswith Ascii.eqb Bool.eqb andb].
  rewrite sub_scm_step.
  change (String "g" ("it@" ++ host ++ ":" ++ path))
    with ("git@" ++ (host ++ ":" ++ path)).
  unfold scm_hit. rewrite drop_git.
  cbn [Str.startswith Ascii.eqb Bool.eqb andb append].
  rewrite (first_colon_app _ path Hc Hn).
  cbn [len group groups Nat.sub nth Nat.add substring].
  rewrite substring_prefix.
  replace (S (S (S (S (String.length host)))))
    with (String.length ("it@" ++ host ++ ":"))
    by (cbn; rewrite length_app; cbn; lia).
  change (String "i" (String "t" (String "@" (host ++ String ":" path))))
    with ("it@" ++ (host ++ ":" ++ path)).
  replace ("it@" ++ host ++ ":" ++ path) with (("it@" ++ host ++ ":") ++ path)
    by (cbn; rewrite app_assoc; reflexivity).
  rewrite sub_scm_skip, (sub_scm_no_colon _ _ Hp). reflexivity.
Qed.

Lemma first_colon_lt s j : first_colon s = Some j -> j < String.length s.
Proof.
  revert j. induction s as [|c s IH]; intros j H; [discriminate|].
  cbn [first_colon String.length] in *.
  destruct (Ascii.eqb c ":"); [inversion H; lia|].
  destruct (Ascii.eqb c Str.LF); [discriminate|].
  destruct (first_colon s) as [j'|]; [|discriminate].
  inversion H. specialize (IH _ eq_refl). lia.
Qed.

Lemma length_substring s : forall n m,
  n + m <= String.length s -> String.length (substring n m s) = m.
Proof.
  induction s as [|c s IH]; intros n m H; cbn [String.length] in H.
  - assert (n = 0) by lia. assert (m = 0) by lia. subst. reflexivity.
  - destruct n as [|n]; cbn [substring].
    + destruct m as [|m]; [reflexivity|]. cbn [String.length]. rewrite IH; lia.
    + apply IH. lia.
Qed.

(** A match is at most four characters longer than its group and the
    colon. *)
Lemma scm_hit_size s h :
  scm_hit s = Some h ->
  exists k, len h = S k /\ k <= 4 + String.length (group h 1).
Proof.
  unfold scm_hit. destruct (Str.startswith "git@" s) eqn:Hp.
  - destruct (startswith_app _ _ Hp) as [t ->]. rewrite drop_git.
    destruct (first_colon t) as [j|] eqn:Hj; [|discriminate].
    intros H. inversion H; subst h; clear H. exists (4 + j).
    split; [reflexivity|]. unfold group. cbn [groups Nat.sub nth].
    apply first_colon_lt in Hj.
    rewrite length_substring; [lia|]. cbn [append String.length]. lia.
  - destruct (first_colon s) as [j|] eqn:Hj; [|discriminate].
    intros H. inversion H; subst h; clear H. exists j.
    split; [reflexivity|]. unfold group. cbn [groups Nat.sub nth].
    apply first_colon_lt in Hj. rewrite length_substring; lia.
Qed.

(** The substitution never shortens the text after the skipped part. *)
Lemma sub_scm_length s : forall k p,
  String.length s <= String.length (sub_from scm_re scm_template k p s) + k.
Proof.
  induction s as [|c s IH]; intros k p; [cbn; lia|].
  destruct k as [|k].
  - rewrite sub_scm_step. destruct (scm_hit (String c s)) as [h|] eqn:Hh.
    + destruct (scm_hit_size _ _ Hh) as (k & -> & Hk).
      rewrite !length_app. cbn [String.length].
      specialize (IH k (Some c)). lia.
    + cbn [String.length]. specialize (IH 0 (Some c)). lia.
  - cbn [sub_from String.length]. specialize (IH k (Some c)). lia.
Qed.

(** It lengthens every text that has a colon. *)
Lemma sub_scm_longer s : forall p,
  Str.contains ":" s = true ->
  String.length s < String.length (sub_from scm_re scm_template 0 p s).
Proof.
  induction s as [|c s IH]; intros p H; [discriminate|].
  rewrite sub_scm_step. destruct (scm_hit (String c s)) as [h|] eqn:Hh.
  - destruct (scm_hit_size _ _ Hh) as (k & -> & Hk).
    rewrite !length_app. cbn [String.length].
    pose proof (sub_scm_length s k (Some c)). lia.
  - rewrite contains_char in H.
    destruct (Ascii.eqb ":" c) eqn:Hc.
    + apply Ascii.eqb_eq in Hc. subst c. discriminate Hh.
    + cbn [orb] in H. cbn [String.length]. specialize (IH (Some c) H). lia.
Qed.

Lemma https_first_colon s : Str.startswith "https://" s = true -> first_colon s = Some 5.
Proof. intros H. destruct (startswith_app _ _ H) as [t ->]. reflexivity. Qed.

Lemma scm_hit_first_colon s : scm_hit s = None -> first_colon s = None.
Proof.
  intros H. destruct (first_colon s) as [j|] eqn:Hj; [|reflexivity].
  destruct (scm_hit_some _ _ Hj) as (h & k & Hh & _). congruence.
Qed.

(** Lines before the first colon are copied, so a newline before the first
    colon stays before it. *)
Lemma sub_scm_first_none s : forall p,
  first_colon s = None -> first_colon (sub_from scm_re scm_template 0 p s) = None.
Proof.
  induction s as [|c s IH]; intros p H; [reflexivity|].
  rewrite sub_scm_step, (scm_hit_none _ H).
  cbn [first_colon] in *.
  destruct (Ascii.eqb c ":"); [discriminate|].
  destruct (Ascii.eqb c Str.LF); [reflexivity|].
  destruct (first_colon s) as [j|]; [discriminate|].
  rewrite (IH (Some c) eq_refl). reflexivity.
Qed.

Lemma sub_scm_has_colon s : forall p,
  Str.contains ":" s = true ->
  Str.contains ":" (sub_from scm_re scm_template 0 p s) = true.
Proof.
  induction s as [|c s IH]; intros p H; [discriminate|].
  rewrite sub_scm_step. destruct (scm_hit (String c s)) as [h|] eqn:Hh.
  - destruct (scm_hit_size _ _ Hh) as (k & -> & _). reflexivity.
  - rewrite contains_char in *.
    destruct (Ascii.eqb ":" c) eqn:Hc; [reflexivity|].
    cbn [orb] in *. apply IH. exact H.
Qed.

(** Where [convert_scm_url] is not idempotent. *)
Lemma convert_twice_differs x :
  one_line_to_colon x = false ->
  convert_scm_url (convert_scm_url x) <> convert_scm_url x.
Proof.
  unfold one_line_to_colon. intros H.
  destruct (first_colon x) as [j|] eqn:Hj; [discriminate|].
  apply negb_false_iff in H.
  assert (Hx : convert_scm_url x = Re.sub scm_re scm_template x).
  { unfold convert_scm_url. destruct (Str.startswith "https://" x) eqn:Hs; [|reflexivity].
    rewrite (https_first_colon _ Hs) in Hj. discriminate. }
  rewrite Hx. unfold Re.sub.
  pose proof (sub_scm_first_none x None Hj) as Hj'.
  pose proof (sub_scm_has_colon x None H) as H'.
  set (y := sub_from scm_re scm_template 0 None x) in *.
  unfold convert_scm_url.
  destruct (Str.startswith "https://" y) eqn:Hs.
  { rewrite (https_first_colon _ Hs) in Hj'. discriminate. }
  intros Heq. pose proof (sub_scm_longer y None H') as Hlen.
  unfold Re.sub in Heq. rewrite Heq in Hlen. lia.
Qed.

End UrlFacts.

(** ** Computations *)

Module MFacts.

Lemma bind_ok A B (c : M A) (f : A -> M B) h b h' :
  bind c f h = Ok (b, h') ->
  exists a h1, c h = Ok (a, h1) /\ f a h1 = Ok (b, h').
Proof.
  unfold bind. destruct (c h) as [[a h1]|e]; [|discriminate].
  intros H. exists a, h1. split; [reflexivity|exact H].
Qed.

Lemma bind_step A B (c : M A) (f : A -> M B) h a h1 :
  c h = Ok (a, h1) -> bind c f h = f a h1.
Proof. unfold bind. intros ->. reflexivity. Qed.

End MFacts.

(** ** Fetching the Jenkinsfile *)

Module FetchFacts.
Import GitLabAPI Fetch MFacts.

Lemma settles_outcome r : settles r = false -> outcome r = None.
Proof.
  unfold settles, outcome. destruct (status_code r =? 200)%Z; [discriminate|].
  destruct (marker (text r)); [discriminate|reflexivity].
Qed.

(** One turn of the loop: the attempt is sent; it ends the loop with its
    outcome or the loop goes on with the branches left. *)
Lemma try_branches_step E scm enc b rest h :
  let rq := {| server := GitLab; url := jenkinsfile_url scm enc b |} in
  try_branches E scm enc (b :: rest) h
  = if settles (respond E h rq)
    then Ok (outcome (respond E h rq), (h ++ [rq])%list)
    else try_branches E scm enc rest (h ++ [rq])%list.
Proof.
  cbv zeta. cbn [try_branches]. unfold bind, get, settles, outcome, marker.
  destruct (status_code _ =? 200)%Z; [reflexivity|].
  cbn [orb].
  destruct (Str.contains "Project Not Found" _); [reflexivity|].
  destruct (Str.contains "File Not Found" _); [reflexivity|].
  destruct (Str.contains "Commit Not Found" _); reflexivity.
Qed.

Lemma try_branches_last E scm enc b h :
  let rq := {| server := GitLab; url := jenkinsfile_url scm enc b |} in
  try_branches E scm enc [b] h = Ok (outcome (respond E h rq), (h ++ [rq])%list).
Proof.
  cbv zeta. rewrite try_branches_step.
  destruct (settles _) eqn:Hs; [reflexivity|].
  rewrite (settles_outcome _ Hs). reflexivity.
Qed.

Lemma content_guard scm path :
  scm <> "NA" -> path <> "NA" ->
  (String.eqb scm "NA" || String.eqb path "NA")%bool = false.
Proof.
  intros H1 H2. apply String.eqb_neq in H1, H2. rewrite H1, H2. reflexivity.
Qed.

Lemma content_wildcard E scm path b job h :
  scm <> "NA" -> path <> "NA" -> (b = "**" \/ b = "Any") ->
  get_jenkinsfile_content E scm (Some path) (Some b) job h
  = try_branches E scm (Str.replace "/" "%2F" path) ["main"; "master"] h.
Proof.
  intros H1 H2 Hb. unfold get_jenkinsfile_content.
  rewrite (content_guard _ _ H1 H2).
  destruct Hb as [-> | ->]; reflexivity.
Qed.

Lemma content_single E scm path b job h :
  scm <> "NA" -> path <> "NA" -> b <> "**" -> b <> "Any" ->
  get_jenkinsfile_content E scm (Some path) (Some b) job h
  = try_branches E scm (Str.replace "/" "%2F" path) [Str.replace "*/" "" b] h.
Proof.
  intros H1 H2 Hb1 Hb2. unfold get_jenkinsfile_content.
  rewrite (content_guard _ _ H1 H2).
  apply String.eqb_neq in Hb1, Hb2. unfold is_wildcard. rewrite Hb1, Hb2.
  reflexivity.
Qed.



End FetchFacts.


(** ** Reading a job from Jenkins *)

Module JenkinsFacts.
Import JenkinsAPI Answers MFacts.

Lemma config_xml_eq E u h :
  config_xml E u h
  = if (status_code (respond E h (config_request u)) =? 200)%Z
    then match fromstring E (text (respond E h (config_request u))) with
         | Some root => Ok (Some root, (h ++ [config_request u])%list)
         | None => Raise ParseError
         end
    else Ok (None, (h ++ [config_request u])%list).
Proof.
  unfold config_xml, bind, get. fold (config_request u).
  destruct (status_code _ =? 200)%Z; [|reflexivity].
  destruct (fromstring E _); reflexivity.
Qed.

Lemma config_xml_sent E u h c h' :
  config_xml E u h = Ok (c, h') -> h' = (h ++ [config_request u])%list.
Proof.
  rewrite config_xml_eq. destruct (status_code _ =? 200)%Z.
  - destruct (fromstring E _); [|discriminate]. intros H. inversion H. reflexivity.
  - intros H. inversion H. reflexivity.
Qed.

(** A reader of the configuration sends one request. *)
Ltac reader_sent :=
  let H := fresh in
  let c := fresh in
  let h1 := fresh in
  let Hc := fresh in
  intros H; apply bind_ok in H; destruct H as (c & h1 & Hc & H);
  apply config_xml_sent in Hc; subst h1;
  destruct c; inversion H; reflexivity.

Lemma get_pipeline_type_sent E u h v h' :
  get_pipeline_type E u h = Ok (v, h') -> h' = (h ++ [config_request u])%list.
Proof. unfold get_pipeline_type. reader_sent. Qed.

Lemma get_scm_url_sent E u h v h' :
  get_scm_url E u h = Ok (v, h') -> h' = (h ++ [config_request u])%list.
Proof. unfold get_scm_url. reader_sent. Qed.

Lemma get_jenkinsfile_path_sent E u h v h' :
  get_jenkinsfile_path E u h = Ok (v, h') -> h' = (h ++ [config_request u])%list.
Proof. unfold get_jenkinsfile_path. reader_sent. Qed.

Lemma get_branch_specifier_sent E u h v h' :
  get_branch_specifier E u h = Ok (v, h') -> h' = (h ++ [config_request u])%list.
Proof. unfold get_branch_specifier. reader_sent. Qed.

Lemma fetch_last_run_eq E u h :
  fetch_last_run E u h
  = if (status_code (respond E h (last_build_request u)) =? 200)%Z
    then match json E (text (respond E h (last_build_request u))) with
         | None => Raise JSONDecodeError
         | Some build_data =>
             match last_run_of E build_data with
             | Ok last_run => Ok (last_run, (h ++ [last_build_request u])%list)
             | Raise e => Raise e
             end
         end
    else Ok (None, (h ++ [last_build_request u])%list).
Proof.
  unfold fetch_last_run, bind, get. fold (last_build_request u).
  destruct (status_code _ =? 200)%Z; [|reflexivity].
  destruct (json E _); [|reflexivity].
  destruct (last_run_of E _); reflexivity.
Qed.

Lemma fetch_last_run_sent E u h v h' :
  fetch_last_run E u h = Ok (v, h') -> h' = (h ++ [last_build_request u])%list.
Proof.
  rewrite fetch_last_run_eq. destruct (status_code _ =? 200)%Z.
  - destruct (json E _); [|discriminate].
    destruct (last_run_of E _); [|discriminate]. intros H. inversion H. reflexivity.
  - intros H. inversion H. reflexivity.
Qed.

(** With readable answers the readers return, and return strings. *)
Section Readable.
Variables (E : Env) (u : string).
Hypothesis good : readable E u.







End Readable.

(** Answers that all fail are readable: nothing is asked of them. *)
Lemma readable_when_failing E u :
  (forall h rq, server rq = Jenkins -> status_code (respond E h rq) <> 200%Z) ->
  readable E u.
Proof.
  intros Hf h. split; intros H; exfalso; revert H; apply Hf; reflexivity.
Qed.

End JenkinsFacts.

(** ** The loop body and the loop *)

Module MainFacts.
Import Main Answers MFacts JenkinsFacts.

(** What a pass of the loop body that returns has done, in order: the four
    readers of the configuration, the classification, the last run. *)
Lemma process_job_anatomy E n p u h row h' :
  process_job E (n, p, u) h = Ok (row, h') ->
  exists h5 last_run,
    job_of row = (n, p, u)
    /\ team row = hd "" (Str.split " -> " p)
    /\ (if not_from_scm (pipeline_type row)
        then h5 = (h ++ config_requests u)%list
             /\ is_modular row = PyBool false
             /\ shared_library row = "NA"
             /\ module_name row = "NA"
        else exists content,
             GitLabAPI.get_jenkinsfile_content E (scm_url row) (jenkinsfile_path row)
               (branch_specifier row) n (h ++ config_requests u)%list
             = Ok (content, h5)
             /\ is_modular row = GitLabAPI.check_modularity content
             /\ (if truthy (is_modular row)
                 then shared_library row
                      = GitLabAPI.parse_shared_library (of_opt content)
                      /\ module_name row
                         = (if String.eqb (shared_library row) "No Shared Library"
                            then "NA"
                            else GitLabAPI.parse_module_name (of_opt content))
                 else shared_library row = "NA" /\ module_name row = "NA"))
    /\ JenkinsAPI.fetch_last_run E u h5 = Ok (last_run, h')
    /\ h' = (h5 ++ [last_build_request u])%list
    /\ match last_run with
       | None =>
           last_run_str row = "No Runs"
           /\ older_than_three_months row = PyBool true
       | Some t =>
           last_run_str row = strftime E t
           /\ older_than_three_months row
              = of_optbool (Helpers.is_older_than_three_months (now E h') (Some t))
       end.
Proof.
  unfold process_job. intros H.
  apply bind_ok in H. destruct H as (pt & h1 & H1 & H).
  apply bind_ok in H. destruct H as (scm0 & h2 & H2 & H).
  apply bind_ok in H. destruct H as (scm & h2' & H2' & H).
  apply bind_ok in H. destruct H as (path & h3 & H3 & H).
  apply bind_ok in H. destruct H as (branch & h4 & H4 & H).
  apply bind_ok in H. destruct H as ([[im sl] mn] & h5 & H5 & H).
  apply bind_ok in H. destruct H as (last_run & h6 & H6 & H).
  apply bind_ok in H. destruct H as ([lrs old] & h7 & H7 & H).
  inversion H; subst row h7; clear H. cbn [job_of job_name current_path job_url
    team pipeline_type scm_url jenkinsfile_path branch_specifier is_modular
    shared_library module_name last_run_str older_than_three_months].
  apply get_pipeline_type_sent in H1. apply get_scm_url_sent in H2.
  apply get_jenkinsfile_path_sent in H3. apply get_branch_specifier_sent in H4.
  assert (h2' = h2) as ->.
  { destruct scm0; [|discriminate]. inversion H2'. reflexivity. }
  assert (Hh4 : h4 = (h ++ config_requests u)%list).
  { subst. unfold config_requests. rewrite <- !app_assoc. reflexivity. }
  rewrite <- Hh4. clear H1 H2 H3 H4 Hh4 H2'.
  pose proof (fetch_last_run_sent _ _ _ _ _ H6) as Hh6.
  exists h5, last_run. split; [reflexivity|]. split; [reflexivity|].
  split.
  - destruct (not_from_scm pt).
    + inversion H5. repeat split; reflexivity.
    + apply bind_ok in H5. destruct H5 as (content & h5' & Hc & H5).
      exists content.
      destruct (truthy (GitLabAPI.check_modularity content)) eqn:Ht.
      * destruct (String.eqb (GitLabAPI.parse_shared_library (of_opt content))
                    "No Shared Library") eqn:Hsl;
          inversion H5; subst; rewrite Ht, ?Hsl;
          (split; [exact Hc|repeat split; reflexivity]).
      * inversion H5; subst. rewrite Ht.
        split; [exact Hc|repeat split; reflexivity].
  - destruct last_run as [t|].
    + apply bind_ok in H7. destruct H7 as (nw & h7 & Hn & H7).
      inversion Hn; subst nw h7. inversion H7; subst.
      repeat split; try reflexivity; assumption.
    + inversion H7; subst. repeat split; try reflexivity; assumption.
Qed.


Lemma process_job_job E job h row h' :
  process_job E job h = Ok (row, h') -> job_of row = job.
Proof.
  destruct job as [[n p] u]. intros H.
  destruct (process_job_anatomy _ _ _ _ _ _ _ H) as (_ & _ & Hj & _). exact Hj.
Qed.

(** The loop appends one row per job, in the order of the jobs. *)
Lemma loop_rows E : forall jobs acc h rows h',
  loop E jobs acc h = Ok (rows, h') ->
  exists new, rows = (acc ++ new)%list /\ map job_of new = jobs.
Proof.
  induction jobs as [|job rest IH]; intros acc h rows h' H.
  - inversion H. exists []. rewrite app_nil_r. split; reflexivity.
  - cbn [loop] in H. apply bind_ok in H. destruct H as (row & h1 & Hr & H).
    destruct (IH _ _ _ _ H) as (new & -> & Hn).
    exists (row :: new). rewrite <- app_assoc. split; [reflexivity|].
    cbn [map]. rewrite Hn, (process_job_job _ _ _ _ _ Hr). reflexivity.
Qed.


(** Total failure of the requests about a job. *)
Section Failing.
Variables (E : Env) (u : string).
Hypothesis config_fails :
  forall h, status_code (respond E h (config_request u)) <> 200%Z.
Hypothesis last_build_fails :
  forall h, status_code (respond E h (last_build_request u)) <> 200%Z.




End Failing.

End MainFacts.

(** ** Discovery *)

Module DiscoveryFacts.
Import Discovery Tree StrFacts.

Lemma andthen_done A B (c : Run A) (f : A -> Run B) h b h' :
  andthen c f h = Done b h' ->
  exists a h1, c h = Done a h1 /\ f a h1 = Done b h'.
Proof.
  unfold andthen. destruct (c h) as [a h1|e|g]; try discriminate.
  intros H. exists a, h1. split; [reflexivity|exact H].
Qed.

Lemma andthen_step A B (c : Run A) (f : A -> Run B) h a h1 :
  c h = Done a h1 -> andthen c f h = f a h1.
Proof. unfold andthen. intros ->. reflexivity. Qed.

Lemma subscript_lookup v key x h h' :
  subscript v key h = Done x h' -> lookup key v = Some x /\ h' = h.
Proof.
  destruct v; try discriminate. cbn [subscript lookup].
  destruct (find _ fields) as [kv|]; [|discriminate].
  intros H. inversion H. split; reflexivity.
Qed.

Lemma lookup_subscript v key x h :
  lookup key v = Some x -> subscript v key h = Done x h.
Proof.
  destruct v; try discriminate. cbn [subscript lookup].
  destruct (find _ fields) as [kv|]; [|discriminate].
  intros H. inversion H. reflexivity.
Qed.

Lemma followed_done v s h h' : followed v h = Done s h' -> v = JStr s /\ h' = h.
Proof.
  destruct v; try discriminate. intros H. inversion H. split; reflexivity.
Qed.

Lemma has_key_lookup key v :
  has_key key v = match lookup key v with Some _ => true | None => false end.
Proof.
  destruct v; try reflexivity. cbn [has_key lookup].
  induction fields as [|kv fields IH]; [reflexivity|].
  cbn [existsb find]. destruct (String.eqb (fst kv) key); [reflexivity|exact IH].
Qed.

Lemma lead_nonempty p : p <> "" -> lead p = p ++ " -> ".
Proof.
  intros H. unfold lead. apply String.eqb_neq in H. rewrite H. reflexivity.
Qed.

Lemma shaped_below parent folder job :
  shaped (lead parent ++ folder) job -> shaped parent job.
Proof.
  destruct job as [[n p] u]. intros (between & ->).
  destruct (String.eqb_spec (lead parent ++ folder) "") as [He|Hne].
  - exists between. unfold lead at 1. rewrite He. cbn [String.eqb negb].
    destruct (lead parent); [reflexivity|discriminate].
  - exists (folder ++ " -> " ++ between).
    rewrite (lead_nonempty _ Hne), !app_assoc. reflexivity.
Qed.

Lemma current_path_lead parent name :
  (if negb (String.eqb parent "") then parent ++ " -> " ++ name else name)
  = lead parent ++ name.
Proof.
  unfold lead. destruct (negb (String.eqb parent "")); [|reflexivity].
  rewrite app_assoc. reflexivity.
Qed.

Section Loop.
Variable nested : string -> string -> Run (list Main.Job).
Hypothesis nested_shaped :
  forall api_url parent h jobs h',
    nested api_url parent h = Done jobs h' -> Forall (shaped parent) jobs.

Lemma each_job_shaped parent : forall items acc h jobs h',
  Forall (shaped parent) acc ->
  each_job nested parent items acc h = Done jobs h' ->
  Forall (shaped parent) jobs.
Proof.
  induction items as [|job rest IH]; intros acc h jobs h' Hacc H.
  - inversion H; subst. exact Hacc.
  - cbn [each_job] in H.
    apply andthen_done in H. destruct H as (name & h1 & Hn & H).
    apply andthen_done in H. destruct H as (url & h2 & Hu & H).
    rewrite current_path_lead in H.
    destruct (has_key "jobs" job).
    + apply andthen_done in H. destruct H as (below & h3 & Hb & H).
      eapply IH; [|exact H]. apply Forall_app. split; [exact Hacc|].
      apply nested_shaped in Hb.
      eapply Forall_impl; [|exact Hb]. intros j. apply shaped_below.
    + eapply IH; [|exact H]. apply Forall_app. split; [exact Hacc|].
      constructor; [|constructor]. exists "". reflexivity.
Qed.

End Loop.

Lemma fetch_jobs_shaped E : forall fuel api_url parent h jobs h',
  fetch_jobs E fuel api_url parent h = Done jobs h' ->
  Forall (shaped parent) jobs.
Proof.
  induction fuel as [|fuel IH]; intros api_url parent h jobs h' H; [discriminate|].
  cbn [fetch_jobs] in H.
  apply andthen_done in H. destruct H as (response & h1 & _ & H).
  apply andthen_done in H. destruct H as (data & h2 & _ & H).
  apply andthen_done in H. destruct H as (js & h3 & _ & H).
  apply andthen_done in H. destruct H as (items & h4 & _ & H).
  eapply each_job_shaped; [exact IH|constructor|exact H].
Qed.


Lemma startswith_self a b : Str.startswith a (a ++ b) = true.
Proof.
  induction a as [|c a IH]; [reflexivity|].
  cbn [append Str.startswith]. rewrite Ascii.eqb_refl. exact IH.
Qed.

Lemma endswith_self n : forall a, Str.endswith n (a ++ n) = true.
Proof.
  induction a as [|c a IH].
  - destruct n; cbn [append Str.endswith]; rewrite String.eqb_refl; reflexivity.
  - cbn [append Str.endswith]. rewrite IH. apply orb_true_r.
Qed.

(** A listing of leaves is reported entry by entry. *)
Lemma each_job_leaves nested parent : forall items entries acc h,
  Forall2 leaf_entry items entries ->
  each_job nested parent items acc h
  = Done (acc ++ map (reported parent) entries)%list h.
Proof.
  induction items as [|job rest IH]; intros entries acc h Hl; inversion Hl; subst.
  - cbn. rewrite app_nil_r. reflexivity.
  - destruct y as [n u]. destruct H1 as (Hn & Hu & Hj). cbn [fst snd] in *.
    cbn [each_job].
    rewrite (andthen_step _ _ _ _ _ n h); [|
      rewrite (andthen_step _ _ _ _ _ _ _ (lookup_subscript _ _ _ h Hn)); reflexivity].
    rewrite (andthen_step _ _ _ _ _ u h); [|
      rewrite (andthen_step _ _ _ _ _ _ _ (lookup_subscript _ _ _ h Hu)); reflexivity].
    rewrite has_key_lookup, Hj, current_path_lead.
    rewrite (IH _ _ _ H3), <- List.app_assoc. reflexivity.
Qed.

(** More fuel does not change an outcome that did not run out of fuel. *)
Lemma settled_first A B (c : Run A) (f : A -> Run B) h :
  settled (andthen c f h) -> settled (c h).
Proof. unfold settled, andthen. intros H Hc. apply H. rewrite Hc. reflexivity. Qed.

Lemma andthen_more A B (c : Run A) (f1 f2 : A -> Run B) h :
  settled (andthen c f1 h) ->
  (forall a h1, settled (f1 a h1) -> f2 a h1 = f1 a h1) ->
  andthen c f2 h = andthen c f1 h.
Proof.
  unfold andthen. intros Hs Hf. destruct (c h) as [a h1|e|g]; try reflexivity.
  apply Hf. exact Hs.
Qed.

Lemma each_job_more (n1 n2 : string -> string -> Run (list Main.Job)) parent :
  (forall u p h, settled (n1 u p h) -> n2 u p h = n1 u p h) ->
  forall items acc h,
    settled (each_job n1 parent items acc h) ->
    each_job n2 parent items acc h = each_job n1 parent items acc h.
Proof.
  intros Hn. induction items as [|job rest IH]; intros acc h Hs; [reflexivity|].
  cbn [each_job] in *.
  apply andthen_more; [exact Hs|]. intros name h1 Hs1.
  apply andthen_more; [exact Hs1|]. intros url h2 Hs2.
  destruct (has_key "jobs" job); [|apply IH; exact Hs2].
  pose proof (settled_first _ _ _ _ _ Hs2) as Hsub.
  unfold andthen at 1. rewrite (Hn _ _ _ Hsub).
  fold (andthen (n1 (url ++ tree_query)
                    (if negb (String.eqb parent "") then parent ++ " -> " ++ name else name))
                (fun below => each_job n2 parent rest (acc ++ below)%list) h2).
  apply andthen_more; [exact Hs2|]. intros below h3 Hs3. apply IH. exact Hs3.
Qed.

Lemma fetch_jobs_more E : forall fuel k api_url parent h,
  settled (fetch_jobs E fuel api_url parent h) ->
  fetch_jobs E (fuel + k) api_url parent h = fetch_jobs E fuel api_url parent h.
Proof.
  induction fuel as [|fuel IH]; intros k api_url parent h Hs.
  - exfalso. apply Hs. reflexivity.
  - cbn [Nat.add fetch_jobs] in *.
    apply andthen_more; [exact Hs|]. intros response h1 Hs1.
    apply andthen_more; [exact Hs1|]. intros data h2 Hs2.
    apply andthen_more; [exact Hs2|]. intros js h3 Hs3.
    apply andthen_more; [exact Hs3|]. intros items h4 Hs4.
    apply each_job_more; [|exact Hs4].
    intros u p h0 H0. apply IH. exact H0.
Qed.

End DiscoveryFacts.

(** ** The whole run *)

Module RunFacts.
Import Main Answers MFacts JenkinsFacts.

Lemma loop_app E : forall a b acc h,
  loop E (a ++ b) acc h = bind (loop E a acc) (fun rows => loop E b rows) h.
Proof.
  induction a as [|job a IH]; intros b acc h; [reflexivity|].
  cbn [app loop]. unfold bind.
  destruct (process_job E job h) as [[row h1]|e]; [|reflexivity].
  rewrite IH. reflexivity.
Qed.

Lemma try_branches_sent E scm enc : forall branches h v h',
  GitLabAPI.try_branches E scm enc branches h = Ok (v, h') ->
  exists sent,
    h' = (h ++ sent)%list
    /\ List.length sent <= List.length branches
    /\ Forall (fun rq => server rq = GitLab) sent.
Proof.
  induction branches as [|b rest IH]; intros h v h' H.
  - inversion H. exists []. rewrite app_nil_r. repeat split; [cbn; lia|constructor].
  - rewrite FetchFacts.try_branches_step in H. destruct (Fetch.settles _).
    + inversion H. eexists [_]. repeat split; [cbn; lia|repeat constructor].
    + destruct (IH _ _ _ H) as (sent & -> & Hl & Hf).
      eexists (_ :: sent). rewrite <- List.app_assoc. repeat split.
      * cbn [List.length]. lia.
      * constructor; [reflexivity|exact Hf].
Qed.

Lemma content_sent E scm path branch job h v h' :
  GitLabAPI.get_jenkinsfile_content E scm path branch job h = Ok (v, h') ->
  exists sent,
    h' = (h ++ sent)%list
    /\ List.length sent <= 2
    /\ Forall (fun rq => server rq = GitLab) sent.
Proof.
  unfold GitLabAPI.get_jenkinsfile_content.
  destruct (_ || _)%bool.
  - intros H. inversion H. exists []. rewrite app_nil_r.
    repeat split; [cbn; lia|constructor].
  - intros H. apply bind_ok in H. destruct H as (branches & h1 & Hb & H).
    apply bind_ok in H. destruct H as (p & h2 & Hp & H).
    assert (h1 = h /\ List.length branches <= 2) as [-> Hlen].
    { destruct (GitLabAPI.is_wildcard branch).
      - inversion Hb. split; [reflexivity|cbn; lia].
      - destruct branch as [b|]; [|discriminate]. inversion Hb.
        split; [reflexivity|cbn; lia]. }
    assert (h2 = h) as ->.
    { destruct path; [|discriminate]. inversion Hp. reflexivity. }
    destruct (try_branches_sent _ _ _ _ _ _ _ H) as (sent & -> & Hl & Hf).
    exists sent. repeat split; [lia|exact Hf].
Qed.

(** The pipeline type of a row is what [get_pipeline_type] returned. *)
Lemma process_job_type E n p u h row h' :
  process_job E (n, p, u) h = Ok (row, h') ->
  exists h1, JenkinsAPI.get_pipeline_type E u h = Ok (pipeline_type row, h1).
Proof.
  unfold process_job. intros H.
  apply bind_ok in H. destruct H as (pt & h1 & H1 & H).
  apply bind_ok in H. destruct H as (scm0 & h2 & _ & H).
  apply bind_ok in H. destruct H as (scm & h2' & _ & H).
  apply bind_ok in H. destruct H as (path & h3 & _ & H).
  apply bind_ok in H. destruct H as (branch & h4 & _ & H).
  apply bind_ok in H. destruct H as ([[im sl] mn] & h5 & _ & H).
  apply bind_ok in H. destruct H as (last_run & h6 & _ & H).
  apply bind_ok in H. destruct H as ([lrs old] & h7 & _ & H).
  inversion H; subst row h7; clear H. cbn [pipeline_type].
  exists h1. exact H1.
Qed.

Lemma pipeline_type_range E u h pt h1 :
  JenkinsAPI.get_pipeline_type E u h = Ok (pt, h1) ->
  pt = "Pipeline Script" \/ pt = "Pipeline Script from SCM"
  \/ pt = "Unknown or not a Pipeline job".
Proof.
  unfold JenkinsAPI.get_pipeline_type. intros H.
  apply bind_ok in H. destruct H as (config & h2 & _ & H).
  destruct config as [root|]; inversion H; subst pt h2; clear H.
  - unfold JenkinsAPI.pipeline_type_of.
    destruct (ET.find _ root); [left; reflexivity|].
    destruct (ET.find _ root); [right; left|right; right]; reflexivity.
  - right; right; reflexivity.
Qed.

End RunFacts.

(** ** Splitting a path at the arrows *)

Module SplitFacts.
Import StrFacts.

Lemma rev_string_app s : forall acc,
  Str.rev_string acc s = Str.rev_string "" s ++ acc.
Proof.
  induction s as [|c s IH]; intros acc; [reflexivity|].
  cbn [Str.rev_string]. rewrite (IH (String c acc)), (IH (String c "")).
  rewrite app_assoc. reflexivity.
Qed.

Lemma rev_string_append a : forall b,
  Str.rev_string "" (a ++ b) = Str.rev_string "" b ++ Str.rev_string "" a.
Proof.
  induction a as [|c a IH]; intros b.
  - cbn. rewrite app_empty_r. reflexivity.
  - cbn [append Str.rev_string].
    rewrite (rev_string_app (a ++ b)), (rev_string_app a), IH, app_assoc.
    reflexivity.
Qed.

Lemma rev_string_involutive s : Str.rev_string "" (Str.rev_string "" s) = s.
Proof.
  induction s as [|c s IH]; [reflexivity|].
  cbn [Str.rev_string]. rewrite (rev_string_app s), rev_string_append, IH.
  reflexivity.
Qed.

Lemma rev_string_pushed cur s :
  Str.rev_string "" (Str.rev_string cur s) = Str.rev_string "" cur ++ s.
Proof.
  rewrite (rev_string_app s), rev_string_append, rev_string_involutive.
  reflexivity.
Qed.

(** An arrow starts at a character only when the mark [>] is two characters
    further. *)
Lemma arrow_needs_mark c s rest :
  Str.contains ">" (String c s) = false ->
  Str.startswith " -> " (String c s ++ " -> " ++ rest) = false.
Proof.
  intros H. rewrite contains_char in H. apply orb_false_elim in H.
  destruct H as [_ H]. cbn [append Str.startswith].
  destruct (Ascii.eqb " " c); [|reflexivity]. cbn [andb].
  destruct s as [|d s]; [reflexivity|].
  rewrite contains_char in H. apply orb_false_elim in H. destruct H as [_ H].
  cbn [append Str.startswith].
  destruct (Ascii.eqb "-" d); [|reflexivity]. cbn [andb].
  destruct s as [|e s]; [reflexivity|].
  rewrite contains_char in H. apply orb_false_elim in H. destruct H as [He _].
  cbn [append Str.startswith]. rewrite He. reflexivity.
Qed.

Lemma arrow_absent c s :
  Str.contains ">" (String c s) = false ->
  Str.startswith " -> " (String c s) = false.
Proof.
  intros H. rewrite contains_char in H. apply orb_false_elim in H.
  destruct H as [_ H]. cbn [Str.startswith].
  destruct (Ascii.eqb " " c); [|reflexivity]. cbn [andb].
  destruct s as [|d s]; [reflexivity|].
  rewrite contains_char in H. apply orb_false_elim in H. destruct H as [_ H].
  destruct (Ascii.eqb "-" d); [|reflexivity]. cbn [andb].
  destruct s as [|e s]; [reflexivity|].
  rewrite contains_char in H. apply orb_false_elim in H. destruct H as [He _].
  rewrite He. reflexivity.
Qed.

Lemma contains_tail a c s :
  Str.contains (String a "") (String c s) = false ->
  Str.contains (String a "") s = false.
Proof. rewrite contains_char. intros H. apply orb_false_elim in H. apply H. Qed.

Lemma split_first_segment top rest : forall cur,
  Str.contains ">" top = false ->
  Str.split_from " -> " 0 cur (top ++ " -> " ++ rest)
  = (Str.rev_string "" cur ++ top) :: Str.split_from " -> " 0 "" rest.
Proof.
  induction top as [|c top IH]; intros cur H.
  - cbn [append Str.split_from Str.startswith Ascii.eqb Bool.eqb andb String.length Nat.sub].
    rewrite app_empty_r. destruct rest; reflexivity.
  - change (String c top ++ " -> " ++ rest)
      with (String c (top ++ " -> " ++ rest)).
    cbn [Str.split_from].
    change (String c (top ++ " -> " ++ rest))
      with (String c top ++ " -> " ++ rest).
    rewrite (arrow_needs_mark _ _ _ H).
    rewrite (IH _ (contains_tail _ _ _ H)).
    cbn [Str.rev_string]. rewrite (rev_string_app cur), app_assoc. reflexivity.
Qed.

Lemma split_one_segment top : forall cur,
  Str.contains ">" top = false ->
  Str.split_from " -> " 0 cur top = [Str.rev_string "" cur ++ top].
Proof.
  induction top as [|c top IH]; intros cur H.
  - cbn. rewrite app_empty_r. reflexivity.
  - cbn [Str.split_from]. rewrite (arrow_absent _ _ H).
    rewrite (IH _ (contains_tail _ _ _ H)).
    cbn [Str.rev_string]. rewrite (rev_string_app cur), app_assoc. reflexivity.
Qed.

End SplitFacts.

(** ** More on URLs and addresses *)

Module AddressFacts.
Import Re GitLabAPI Url StrFacts UrlFacts.

(** A match that is the head [m] of the text is replaced and the
    substitution goes on after it. *)
Lemma sub_scm_head m b h p :
  scm_hit (m ++ b) = Some h -> len h = String.length m ->
  exists p',
    sub_from scm_re scm_template 0 p (m ++ b)
    = "https://" ++ group h 1 ++ "/" ++ sub_from scm_re scm_template 0 p' b.
Proof.
  intros Hh Hl. destruct m as [|c m].
  - exfalso. apply (scm_hit_nonempty _ _ Hh). exact Hl.
  - cbn [append]. rewrite sub_scm_step. cbn [append] in Hh. rewrite Hh.
    cbn [String.length] in Hl. rewrite Hl.
    exists (Some c). rewrite sub_scm_skip. reflexivity.
Qed.

Lemma convert_one_colon a rest :
  Str.contains ":" a = false ->
  Str.contains (String Str.LF "") a = false ->
  Str.contains ":" rest = false ->
  Str.startswith "git@" (a ++ ":" ++ rest) = false ->
  Str.startswith "https://" (a ++ ":" ++ rest) = false ->
  convert_scm_url (a ++ ":" ++ rest) = "https://" ++ a ++ "/" ++ rest.
Proof.
  intros Hc Hn Hr Hg Hs. unfold convert_scm_url, Re.sub. rewrite Hs.
  assert (Hh : scm_hit ((a ++ ":") ++ rest)
               = Some {| len := S (String.length a); groups := [a] |}).
  { rewrite app_assoc. unfold scm_hit. rewrite Hg.
    change (":" ++ rest) with (String ":" rest).
    rewrite (first_colon_app _ rest Hc Hn), substring_prefix. reflexivity. }
  replace (a ++ ":" ++ rest) with ((a ++ ":") ++ rest) by apply app_assoc.
  destruct (sub_scm_head _ _ _ None Hh) as (p' & ->).
  - cbn [len]. rewrite length_app. cbn [String.length]. lia.
  - rewrite (sub_scm_no_colon _ _ Hr). reflexivity.
Qed.

Lemma convert_starts_https x j :
  first_colon x = Some j -> Str.startswith "https://" (convert_scm_url x) = true.
Proof.
  intros Hj. unfold convert_scm_url.
  destruct (Str.startswith "https://" x) eqn:Hx; [exact Hx|].
  apply (sub_scm_first_line _ _ Hj).
Qed.

(** Encoding the slashes leaves none. *)
Lemma contains_app_char a x y :
  Str.contains (String a "") (x ++ y)
  = (Str.contains (String a "") x || Str.contains (String a "") y)%bool.
Proof.
  induction x as [|c x IH]; [reflexivity|].
  cbn [append]. rewrite !contains_char, IH, orb_assoc. reflexivity.
Qed.

Lemma encoded_has_no_slash s :
  Str.contains "/" (Str.replace "/" "%2F" s) = false.
Proof.
  unfold Str.replace. induction s as [|c s IH]; [reflexivity|].
  cbn [Str.replace_from Str.startswith String.length Nat.sub].
  rewrite andb_true_r. destruct (Ascii.eqb "/" c) eqn:Hc.
  - rewrite contains_app_char, IH. reflexivity.
  - rewrite contains_char, Hc, IH. reflexivity.
Qed.

(** The greedy run before the suffix .git takes everything up to the last
    .git of the line. *)
Lemma greedy_dot_then_git R (F : nat -> spans -> R) n0 :
  forall proj prev n g,
    Str.contains (String Str.LF "") proj = false ->
    rep true 0 dot prev n (proj ++ ".git") g
        (fun p' n' s' g' =>
           lit ".git" p' n' s' (g' ++ [(n0, n')])%list (fun _ m _ g'' => Some (F m g'')))
    = Some (F (n + String.length proj + 4) (g ++ [(n0, n + String.length proj)])%list).
Proof.
  induction proj as [|c proj IH]; intros prev n g Hn.
  - cbn. rewrite Nat.add_0_r.
    replace (n + 4) with (S (S (S (S n)))) by lia. reflexivity.
  - rewrite contains_char in Hn. apply orb_false_elim in Hn. destruct Hn as [Hc Hn].
    cbn [append rep]. unfold dot at 1. rewrite Ascii.eqb_sym, Hc. cbn [negb].
    rewrite (IH _ _ _ Hn). cbn [String.length].
    replace (n + S (String.length proj)) with (S n + String.length proj) by lia.
    reflexivity.
Qed.

(** The greedy run at the end of the pattern takes the rest of the line. *)
Lemma greedy_dot_to_end R (F : nat -> spans -> R) n0 :
  forall proj prev n g,
    Str.contains (String Str.LF "") proj = false ->
    rep true 0 dot prev n proj g
        (fun _ n' _ g' => Some (F n' (g' ++ [(n0, n')])%list))
    = Some (F (n + String.length proj) (g ++ [(n0, n + String.length proj)])%list).
Proof.
  induction proj as [|c proj IH]; intros prev n g Hn.
  - cbn. rewrite Nat.add_0_r. reflexivity.
  - rewrite contains_char in Hn. apply orb_false_elim in Hn. destruct Hn as [Hc Hn].
    cbn [rep]. unfold dot at 1. rewrite Ascii.eqb_sym, Hc. cbn [negb].
    rewrite (IH _ _ _ Hn). cbn [String.length].
    replace (n + S (String.length proj)) with (S n + String.length proj) by lia.
    reflexivity.
Qed.

Lemma lit_app R p : forall t prev n g (k : cont R),
  exists prev', lit p prev n (p ++ t) g k = k prev' (n + String.length p) t g.
Proof.
  induction p as [|a p IH]; intros t prev n g k.
  - exists prev. cbn. rewrite Nat.add_0_r. reflexivity.
  - cbn [append lit]. rewrite Ascii.eqb_refl.
    destruct (IH t (Some a) (S n) g k) as (prev' & ->).
    exists prev'. cbn [String.length]. f_equal. lia.
Qed.

Lemma sub_from_skip_all r t : forall s k p,
  String.length s <= k -> sub_from r t k p s = "".
Proof.
  induction s as [|c s IH]; intros k p H; [reflexivity|].
  cbn [String.length] in H. destruct k as [|k]; [lia|].
  cbn [sub_from]. apply IH. lia.
Qed.

Lemma substring_middle a b c :
  substring (String.length a) (String.length b) (a ++ b ++ c) = b.
Proof.
  induction a as [|x a IH]; [exact (substring_prefix b c)|exact IH].
Qed.

(** The whole text is one match: the substitution returns the expansion. *)
Lemma sub_whole r t s h :
  match_at r None s = Some h -> len h = String.length s -> s <> "" ->
  Re.sub r t s = expand t h.
Proof.
  intros Hm Hl Hs. unfold Re.sub. destruct s as [|c s]; [contradiction|].
  cbn [sub_from]. rewrite Hm, Hl. cbn [String.length].
  rewrite sub_from_skip_all; [apply app_empty_r|lia].
Qed.

Lemma project_path_git proj :
  Str.contains (String Str.LF "") proj = false ->
  Re.sub project_git_re [Ref 1] (gitlab_host ++ proj ++ ".git") = proj.
Proof.
  intros Hn.
  assert (Hm : match_at project_git_re None (gitlab_host ++ proj ++ ".git")
               = Some {| len := String.length (gitlab_host ++ proj ++ ".git");
                         groups := [proj] |}).
  { unfold match_at, project_git_re. cbn [run].
    destruct (lit_app _ gitlab_host (proj ++ ".git") None 0 []
                (fun p n' s' g' =>
                   rep true 0 dot p n' s' g'
                     (fun p0 n'0 s'0 g'0 =>
                        lit ".git" p0 n'0 s'0 (g'0 ++ [(n', n'0)])%list
                          (fun _ n0 _ g0 =>
                             Some {| len := n0;
                                     groups := map (fun ab => substring (fst ab) (snd ab - fst ab)
                                                               (gitlab_host ++ proj ++ ".git")) g0 |}))))
      as (prev' & ->).
    rewrite (greedy_dot_then_git _
               (fun m g => {| len := m;
                              groups := map (fun ab => substring (fst ab) (snd ab - fst ab)
                                                        (gitlab_host ++ proj ++ ".git")) g |})
               _ _ _ _ _ Hn).
    cbn [app map fst snd]. rewrite !length_app.
    replace (0 + String.length gitlab_host + String.length proj
             - (0 + String.length gitlab_host)) with (String.length proj) by lia.
    cbn [Nat.add]. rewrite substring_middle. cbn [String.length].
    reflexivity. }
  rewrite (sub_whole _ _ _ _ Hm eq_refl); [|discriminate].
  cbn [expand group groups Nat.sub nth]. apply app_empty_r.
Qed.

Lemma project_path_plain proj :
  Str.contains (String Str.LF "") proj = false ->
  Re.sub project_re [Ref 1] (gitlab_host ++ proj) = proj.
Proof.
  intros Hn.
  assert (Hm : match_at project_re None (gitlab_host ++ proj)
               = Some {| len := String.length (gitlab_host ++ proj);
                         groups := [proj] |}).
  { unfold match_at, project_re. cbn [run].
    destruct (lit_app _ gitlab_host proj None 0 []
                (fun p n' s' g' =>
                   rep true 0 dot p n' s' g'
                     (fun p0 n'0 s'0 g'0 =>
                        Some {| len := n'0;
                                groups := map (fun ab => substring (fst ab) (snd ab - fst ab)
                                                          (gitlab_host ++ proj))
                                              (g'0 ++ [(n', n'0)])%list |})))
      as (prev' & ->).
    rewrite (greedy_dot_to_end _
               (fun m g => {| len := m;
                              groups := map (fun ab => substring (fst ab) (snd ab - fst ab)
                                                        (gitlab_host ++ proj)) g |})
               _ _ _ _ _ Hn).
    cbn [app map fst snd]. rewrite !length_app.
    replace (0 + String.length gitlab_host + String.length proj
             - (0 + String.length gitlab_host)) with (String.length proj) by lia.
    cbn [Nat.add].
    replace (gitlab_host ++ proj) with (gitlab_host ++ proj ++ "")
      by (rewrite app_empty_r; reflexivity).
    rewrite substring_middle. reflexivity. }
  rewrite (sub_whole _ _ _ _ Hm eq_refl); [|discriminate].
  cbn [expand group groups Nat.sub nth]. apply app_empty_r.
Qed.

Lemma startswith_before_colon p : forall a t,
  Str.contains ":" p = false -> Str.startswith p a = false ->
  Str.startswith p (a ++ ":" ++ t) = false.
Proof.
  induction p as [|x p IH]; intros a t Hp Ha; [discriminate|].
  rewrite contains_char in Hp. apply orb_false_elim in Hp. destruct Hp as [Hx Hp].
  destruct a as [|c a].
  - cbn [append Str.startswith]. rewrite Ascii.eqb_sym, Hx. reflexivity.
  - cbn [append Str.startswith] in *. destruct (Ascii.eqb x c); [|reflexivity].
    cbn [andb] in *. apply IH; assumption.
Qed.

Lemma https_scheme scheme t :
  Str.contains ":" scheme = false ->
  Str.startswith "https://" (scheme ++ ":" ++ t) = true -> scheme = "https".
Proof.
  intros Hc Hh. destruct (startswith_app _ _ Hh) as [t' H].
  destruct scheme as [|c1 [|c2 [|c3 [|c4 [|c5 [|c6 s]]]]]];
    cbn [append] in H; inversion H; subst; try reflexivity.
  cbn in Hc. discriminate Hc.
Qed.

End AddressFacts.

(** ** Patterns that start with a literal *)

Module PatternFacts.
Import Re StrFacts.

Lemma lit_none R p : forall s prev n g (k : cont R),
  Str.startswith p s = false -> lit p prev n s g k = None.
Proof.
  induction p as [|a p IH]; intros s prev n g k H; [discriminate|].
  destruct s as [|c s]; [reflexivity|].
  cbn [Str.startswith] in H. cbn [lit].
  destruct (Ascii.eqb a c); [|reflexivity].
  apply IH. exact H.
Qed.

Lemma match_lit_none p r prev s :
  Str.startswith p s = false -> match_at (Cat (Lit p) r) prev s = None.
Proof. intros H. unfold match_at. cbn [run]. apply lit_none. exact H. Qed.

Lemma contains_here p s : Str.contains p s = false -> Str.startswith p s = false.
Proof.
  destruct s as [|c s]; cbn [Str.contains]; intros H;
    apply orb_false_elim in H; apply H.
Qed.

Lemma contains_later p c s :
  Str.contains p (String c s) = false -> Str.contains p s = false.
Proof. cbn [Str.contains]. intros H. apply orb_false_elim in H. apply H. Qed.

(** A text without the literal has no match, and a substitution leaves it
    as it is. *)
Lemma search_lit_none p r : forall s prev,
  Str.contains p s = false -> search_from (Cat (Lit p) r) prev s = None.
Proof.
  induction s as [|c s IH]; intros prev H.
  - cbn [search_from]. rewrite (match_lit_none _ _ _ _ (contains_here _ _ H)).
    reflexivity.
  - cbn [search_from]. rewrite (match_lit_none _ _ _ _ (contains_here _ _ H)).
    apply IH. exact (contains_later _ _ _ H).
Qed.

Lemma sub_lit_none p r t : forall s prev,
  Str.contains p s = false -> sub_from (Cat (Lit p) r) t 0 prev s = s.
Proof.
  induction s as [|c s IH]; intros prev H; [reflexivity|].
  cbn [sub_from]. rewrite (match_lit_none _ _ _ _ (contains_here _ _ H)).
  rewrite (IH _ (contains_later _ _ _ H)). reflexivity.
Qed.

(** The search passes over a text without the first character of the
    literal. *)
Lemma search_skips a l r pre : forall s prev,
  Str.contains (String a "") pre = false ->
  exists prev',
    search_from (Cat (Lit (String a l)) r) prev (pre ++ s)
    = search_from (Cat (Lit (String a l)) r) prev' s.
Proof.
  induction pre as [|c pre IH]; intros s prev H.
  - exists prev. reflexivity.
  - rewrite contains_char in H. apply orb_false_elim in H. destruct H as [Hc H].
    cbn [append search_from].
    rewrite match_lit_none by (cbn [Str.startswith]; rewrite Hc; reflexivity).
    apply IH. exact H.
Qed.

End PatternFacts.

(** ** The patterns of the two parsers *)

Module ParseFacts.
Import Re GitLabAPI StrFacts PatternFacts.

Lemma search_hit r prev s h :
  match_at r prev s = Some h -> search_from r prev s = Some h.
Proof. intros H. destruct s; cbn [search_from]; rewrite H; reflexivity. Qed.

(** Inside the name the closing text of the directive does not match. *)
Lemma close_fails R name rest p n g (K : cont R) :
  name <> "" -> Str.contains "]" name = false ->
  lit "'])_" p n (name ++ "'])_" ++ rest) g K = None.
Proof.
  intros Hne Hn. destruct name as [|c [|d s]]; [contradiction| |].
  - cbn [append lit]. destruct (Ascii.eqb "'" c); reflexivity.
  - rewrite !contains_char in Hn. apply orb_false_elim in Hn.
    destruct Hn as [_ Hn]. apply orb_false_elim in Hn. destruct Hn as [Hd _].
    cbn [append lit]. destruct (Ascii.eqb "'" c); [|reflexivity].
    rewrite Hd. reflexivity.
Qed.

(** The lazy run of the directive stops at the first closing text. *)
Lemma lazy_to_close R (F : nat -> spans -> R) n0 :
  forall name rest least prev n g,
    Str.contains "]" name = false ->
    least <= 1 -> least <= String.length name ->
    rep false least (other_than "]") prev n (name ++ "'])_" ++ rest) g
        (fun p' n' s' g' =>
           lit "'])_" p' n' s' (g' ++ [(n0, n')])%list (fun _ m _ g'' => Some (F m g'')))
    = Some (F (n + String.length name + 4) (g ++ [(n0, n + String.length name)])%list).
Proof.
  induction name as [|c name IH]; intros rest least prev n g Hn H1 Hl.
  - cbn [String.length] in Hl. assert (least = 0) as -> by lia.
    cbn. rewrite Nat.add_0_r.
    replace (n + 4) with (S (S (S (S n)))) by lia. reflexivity.
  - pose proof Hn as Hn'. rewrite contains_char in Hn'.
    apply orb_false_elim in Hn'. destruct Hn' as [Hc Hn'].
    change (String c name ++ "'])_" ++ rest)
      with (String c (name ++ "'])_" ++ rest)).
    cbn [rep]. unfold other_than at 1. rewrite Ascii.eqb_sym, Hc. cbn [negb].
    assert (Hstop : match least with
                    | 0 => lit "'])_" prev n (String c (name ++ "'])_" ++ rest))
                             (g ++ [(n0, n)])%list
                             (fun _ m _ g'' => Some (F m g''))
                    | S _ => None
                    end = None).
    { destruct least; [|reflexivity].
      change (String c (name ++ "'])_" ++ rest))
        with (String c name ++ "'])_" ++ rest).
      apply close_fails; [discriminate|exact Hn]. }
    rewrite Hstop.
    rewrite (IH rest (Nat.pred least) (Some c) (S n) g Hn')
      by (destruct least; cbn [Nat.pred]; lia).
    cbn [String.length].
    replace (n + S (String.length name)) with (S n + String.length name) by lia.
    reflexivity.
Qed.

Lemma library_hit prev name rest :
  name <> "" -> Str.contains "]" name = false ->
  match_at library_re prev ("@Library(['" ++ name ++ "'])_" ++ rest)
  = Some {| len := 11 + String.length name + 4; groups := [name] |}.
Proof.
  intros Hne Hn. unfold match_at, library_re. cbn [run].
  destruct (AddressFacts.lit_app _ "@Library(['" (name ++ "'])_" ++ rest) prev 0 []
              (fun p n' s' g' =>
                 rep false 1 (other_than "]") p n' s' g'
                   (fun p0 n'0 s'0 g'0 =>
                      lit "'])_" p0 n'0 s'0 (g'0 ++ [(n', n'0)])%list
                        (fun _ n0 _ g0 =>
                           Some {| len := n0;
                                   groups := map (fun ab => substring (fst ab) (snd ab - fst ab)
                                                             ("@Library(['" ++ name ++ "'])_" ++ rest))
                                                 g0 |}))))
    as (prev' & ->).
  rewrite (lazy_to_close _
             (fun m g => {| len := m;
                            groups := map (fun ab => substring (fst ab) (snd ab - fst ab)
                                                      ("@Library(['" ++ name ++ "'])_" ++ rest))
                                          g |})
             _ _ _ _ _ _ _ Hn);
    [|lia|destruct name; [contradiction|cbn [String.length]; lia]].
  cbn [app map fst snd].
  replace (0 + String.length "@Library(['" + String.length name
           - (0 + String.length "@Library(['")) with (String.length name) by lia.
  cbn [Nat.add]. rewrite AddressFacts.substring_middle. reflexivity.
Qed.

(** A text without the separator is one piece. *)
Lemma split_one_piece a s : forall cur,
  Str.contains (String a "") s = false ->
  Str.split_from (String a "") 0 cur s = [Str.rev_string "" cur ++ s].
Proof.
  induction s as [|c s IH]; intros cur H.
  - cbn. rewrite app_empty_r. reflexivity.
  - rewrite contains_char in H. apply orb_false_elim in H. destruct H as [Hc H].
    cbn [Str.split_from Str.startswith]. rewrite Hc. cbn [andb].
    rewrite (IH _ H). cbn [Str.rev_string].
    rewrite (SplitFacts.rev_string_app cur), app_assoc. reflexivity.
Qed.

(** A greedy run over a text of the class, followed by a character outside
    it, takes the whole text when the rest of the pattern matches there. *)
Lemma greedy_run R cls : forall a tail least prev n g (k : cont R) x,
  Text.all_of cls a = true ->
  match tail with EmptyString => true | String c _ => negb (cls c) end = true ->
  least <= String.length a ->
  (forall p, k p (n + String.length a) tail g = Some x) ->
  rep true least cls prev n (a ++ tail) g k = Some x.
Proof.
  induction a as [|c a IH]; intros tail least prev n g k x Ha Ht Hl Hk.
  - cbn [String.length] in Hl. assert (least = 0) as -> by lia.
    cbn [String.length] in Hk. rewrite Nat.add_0_r in Hk.
    cbn [append]. destruct tail as [|c t]; cbn [rep]; [apply Hk|].
    apply negb_true_iff in Ht. rewrite Ht. apply Hk.
  - cbn [Text.all_of] in Ha. apply andb_prop in Ha. destruct Ha as [Hc Ha].
    cbn [append rep]. rewrite Hc.
    rewrite (IH tail (Nat.pred least) (Some c) (S n) g k x Ha Ht).
    + reflexivity.
    + cbn [String.length] in Hl. destruct least; cbn [Nat.pred]; lia.
    + intros p. cbn [String.length] in Hk.
      replace (S n + String.length a) with (n + S (String.length a)) by lia.
      apply Hk.
Qed.

Lemma space_not_word c : Str.isspace c = true -> Str.isword c = false.
Proof.
  destruct c as [[] [] [] [] [] [] [] []]; intros H;
    solve [reflexivity | discriminate H].
Qed.

Lemma module_hit ind name gap rest :
  Text.all_of Str.isspace ind = true ->
  Text.all_of Str.isword name = true -> name <> "" ->
  Text.all_of Str.isspace gap = true ->
  match_at module_re None (ind ++ name ++ gap ++ "(" ++ rest)
  = Some {| len := String.length ind + String.length name + String.length gap + 1;
            groups := [name] |}.
Proof.
  intros Hi Hw Hne Hg. unfold match_at, module_re. cbn [run].
  apply greedy_run; [exact Hi| |lia|intros p].
  { destruct name as [|c name]; [contradiction|]. cbn [append].
    cbn [Text.all_of] in Hw. apply andb_prop in Hw. destruct Hw as [Hc _].
    unfold space. destruct (Str.isspace c) eqn:Hs; [|reflexivity].
    rewrite (space_not_word _ Hs) in Hc. discriminate Hc. }
  apply greedy_run; [exact Hw| | |intros p0].
  { destruct gap as [|c gap]; [reflexivity|]. cbn [append].
    cbn [Text.all_of] in Hg. apply andb_prop in Hg. destruct Hg as [Hc _].
    unfold word. rewrite (space_not_word _ Hc). reflexivity. }
  { destruct name; [contradiction|cbn [String.length]; lia]. }
  apply greedy_run; [exact Hg|reflexivity|lia|intros p1].
  cbn [append lit]. rewrite Ascii.eqb_refl.
  cbn [app map fst snd].
  replace (0 + String.length ind + String.length name - (0 + String.length ind))
    with (String.length name) by lia.
  cbn [Nat.add]. rewrite AddressFacts.substring_middle.
  f_equal. f_equal. lia.
Qed.

(** What is left of a text without a given character has none either. *)
Lemma lit_keeps R a l : forall prev n s g (k : cont R) x,
  lit l prev n s g k = Some x -> Str.contains (String a "") s = false ->
  exists p' n' s' g',
    Str.contains (String a "") s' = false /\ k p' n' s' g' = Some x.
Proof.
  induction l as [|b l IH]; intros prev n s g k x H Hs; cbn [lit] in H.
  - exists prev, n, s, g. split; assumption.
  - destruct s as [|c s]; [discriminate|].
    destruct (Ascii.eqb b c); [|discriminate].
    apply (IH _ _ _ _ _ _ H). exact (contains_later _ _ _ Hs).
Qed.

Lemma rep_keeps R a greedy cls : forall s least prev n g (k : cont R) x,
  rep greedy least cls prev n s g k = Some x ->
  Str.contains (String a "") s = false ->
  exists p' n' s' g',
    Str.contains (String a "") s' = false /\ k p' n' s' g' = Some x.
Proof.
  assert (Hstop : forall least prev n s g (k : cont R) x,
             match least with O => k prev n s g | S _ => None end = Some x ->
             Str.contains (String a "") s = false ->
             exists p' n' s' g',
               Str.contains (String a "") s' = false /\ k p' n' s' g' = Some x).
  { intros [|least] prev n s g k x H Hs; [|discriminate].
    exists prev, n, s, g. split; assumption. }
  induction s as [|c s IH]; intros least prev n g k x H Hs; cbn [rep] in H.
  - eapply Hstop; eassumption.
  - destruct (cls c); [|eapply Hstop; eassumption].
    pose proof (contains_later _ _ _ Hs) as Hs'.
    destruct greedy.
    + destruct (rep true (Nat.pred least) cls (Some c) (S n) s g k) as [y|] eqn:Hy.
      * inversion H; subst y. apply (IH _ _ _ _ _ _ Hy Hs').
      * eapply Hstop; eassumption.
    + destruct (match least with O => k prev n (String c s) g | S _ => None end)
        as [y|] eqn:Hy.
      * inversion H; subst y. eapply Hstop; eassumption.
      * apply (IH _ _ _ _ _ _ H Hs').
Qed.

Lemma run_keeps R a r : forall prev n s g (k : cont R) x,
  run r prev n s g k = Some x -> Str.contains (String a "") s = false ->
  exists p' n' s' g',
    Str.contains (String a "") s' = false /\ k p' n' s' g' = Some x.
Proof.
  induction r as [l|r1 IH1|greedy least cls|r1 IH1| |r1 IH1 r2 IH2];
    intros prev n s g k x H Hs; cbn [run] in H.
  - eapply lit_keeps; eassumption.
  - destruct (run r1 prev n s g k) as [y|] eqn:Hy.
    + inversion H; subst y. eapply IH1; eassumption.
    + exists prev, n, s, g. split; assumption.
  - eapply rep_keeps; eassumption.
  - destruct (IH1 _ _ _ _ _ _ H Hs) as (p' & n' & s' & g' & Hs' & Hk).
    exists p', n', s', (g' ++ [(n, n')])%list. split; assumption.
  - destruct prev as [c|]; [destruct (Ascii.eqb c Str.LF); [|discriminate]|];
      eexists _, n, s, g; (split; [exact Hs|exact H]).
  - destruct (IH1 _ _ _ _ _ _ H Hs) as (p1 & n1 & s1 & g1 & Hs1 & Hk1).
    apply (IH2 _ _ _ _ _ _ Hk1 Hs1).
Qed.

(** A pattern that ends with a literal character matches no text without
    that character. *)
Lemma ends_with_lit_none a r prev s :
  Str.contains (String a "") s = false ->
  match_at (Cat r (Lit (String a ""))) prev s = None.
Proof.
  intros Hs. destruct (match_at _ prev s) as [h|] eqn:H; [exfalso|reflexivity].
  unfold match_at in H. cbn [run] in H.
  destruct (run_keeps _ a _ _ _ _ _ _ _ H Hs) as (p' & n' & s' & g' & Hs' & Hk).
  cbn [lit] in Hk. destruct s' as [|c s']; [discriminate|].
  rewrite contains_char in Hs'. apply orb_false_elim in Hs'.
  destruct Hs' as [Hc _]. rewrite Hc in Hk. discriminate Hk.
Qed.

(** The pattern of the module name, regrouped: everything before the
    parenthesis, then the parenthesis; the two match the same way. *)
Lemma module_re_regrouped R prev n s g (k : cont R) :
  run module_re prev n s g k
  = run (Cat (Cat Bol (Cat (Rep true 0 space)
                           (Cat (Grp (Rep true 1 word)) (Rep true 0 space))))
             (Lit "(")) prev n s g k.
Proof. reflexivity. Qed.

Lemma module_needs_paren : forall s prev,
  Str.contains "(" s = false -> search_from module_re prev s = None.
Proof.
  assert (Hm : forall s prev, Str.contains "(" s = false ->
                 match_at module_re prev s = None).
  { intros s prev Hs. unfold match_at. rewrite module_re_regrouped.
    exact (ends_with_lit_none "("
             (Cat Bol (Cat (Rep true 0 space)
                           (Cat (Grp (Rep true 1 word)) (Rep true 0 space))))
             prev s Hs). }
  induction s as [|c s IH]; intros prev H; cbn [search_from]; rewrite (Hm _ _ H).
  - reflexivity.
  - apply IH. exact (contains_later _ _ _ H).
Qed.

End ParseFacts.

(** ** The pattern of the module name against the scan *)

Module CallFacts.
Import Re GitLabAPI StrFacts Call.



Lemma drop_stops p s : stops p (Str.lstrip_by p s) = true.
Proof.
  induction s as [|c s IH]; [reflexivity|].
  cbn [Str.lstrip_by]. destruct (p c) eqn:Hc; [exact IH|].
  cbn [stops]. rewrite Hc. reflexivity.
Qed.













End CallFacts.

(** ** The rows of a run *)

Module RowsFacts.
Import Main Answers MFacts JenkinsFacts.









End RowsFacts.

(** ** Walking the folders *)

Module FoldersFacts.
Import Discovery Tree Folders DiscoveryFacts.

Section Walk.
Variable E : Env.
Variable fuel : nat.
Hypothesis below :
  forall api_url parent nodes h,
    listing_at E api_url nodes ->
    fold_right (fun c rest => served E c /\ rest) True nodes ->
    fold_right (fun c d => Nat.max (depth c) d) 0 nodes < fuel ->
    fetch_jobs E fuel api_url parent h
    = Done (flat_map (jobs_of parent) nodes)
           (h ++ {| server := Jenkins; url := api_url |} :: flat_map visits nodes)%list.

Lemma each_job_walk parent : forall items nodes acc h,
  Forall2 listed items nodes ->
  fold_right (fun c rest => served E c /\ rest) True nodes ->
  fold_right (fun c d => Nat.max (depth c) d) 0 nodes < S fuel ->
  each_job (fetch_jobs E fuel) parent items acc h
  = Done (acc ++ flat_map (jobs_of parent) nodes)%list
         (h ++ flat_map visits nodes)%list.
Proof.
  induction items as [|job rest IH]; intros nodes acc h Hl Hs Hd;
    inversion Hl as [|v nd items' nodes' Hv Hrest]; subst.
  - cbn. rewrite !app_nil_r. reflexivity.
  - cbn [fold_right] in Hs, Hd. destruct Hs as [Hs1 Hs].
    assert (Hd1 : depth nd < S fuel) by lia.
    assert (Hd2 : fold_right (fun c d => Nat.max (depth c) d) 0 nodes' < S fuel) by lia.
    clear Hd. destruct nd as [n u|n u children].
    + destruct Hv as (Hn & Hu & Hj). cbn [fst snd] in Hn, Hu.
      cbn [each_job].
      rewrite (andthen_step _ _ _ _ _ n h); [|
        rewrite (andthen_step _ _ _ _ _ _ _ (lookup_subscript _ _ _ h Hn)); reflexivity].
      rewrite (andthen_step _ _ _ _ _ u h); [|
        rewrite (andthen_step _ _ _ _ _ _ _ (lookup_subscript _ _ _ h Hu)); reflexivity].
      rewrite has_key_lookup, Hj, current_path_lead.
      rewrite (IH _ _ _ Hrest Hs Hd2). cbn [flat_map jobs_of visits app].
      rewrite <- List.app_assoc. reflexivity.
    + destruct Hv as (Hn & Hu & Hj). cbn [served] in Hs1. destruct Hs1 as [Hlist Hch].
      cbn [depth] in Hd1.
      cbn [each_job].
      rewrite (andthen_step _ _ _ _ _ n h); [|
        rewrite (andthen_step _ _ _ _ _ _ _ (lookup_subscript _ _ _ h Hn)); reflexivity].
      rewrite (andthen_step _ _ _ _ _ u h); [|
        rewrite (andthen_step _ _ _ _ _ _ _ (lookup_subscript _ _ _ h Hu)); reflexivity].
      rewrite has_key_lookup, current_path_lead.
      destruct (lookup "jobs" job) as [j|]; [|contradiction].
      rewrite (andthen_step _ _ _ _ _ _ _
                 (below (u ++ tree_query) (lead parent ++ n) children h Hlist Hch
                    ltac:(lia))).
      rewrite (IH _ _ _ Hrest Hs Hd2). cbn [flat_map jobs_of visits].
      rewrite <- !List.app_assoc. reflexivity.
Qed.

End Walk.

Lemma fetch_jobs_walk E : forall fuel api_url parent nodes h,
  listing_at E api_url nodes ->
  fold_right (fun c rest => served E c /\ rest) True nodes ->
  fold_right (fun c d => Nat.max (depth c) d) 0 nodes < fuel ->
  fetch_jobs E fuel api_url parent h
  = Done (flat_map (jobs_of parent) nodes)
         (h ++ {| server := Jenkins; url := api_url |} :: flat_map visits nodes)%list.
Proof.
  induction fuel as [|fuel IH]; intros api_url parent nodes h Hl Hs Hd; [lia|].
  cbn [fetch_jobs].
  destruct (Hl h) as (fields & items & Hj & Hjobs & Hitems).
  unfold andthen at 1. unfold lift, get. rewrite Hj.
  unfold andthen at 1. unfold done at 1.
  unfold andthen at 1. unfold dict_get.
  cbn [lookup] in Hjobs.
  destruct (find (fun kv => String.eqb (fst kv) "jobs") fields) as [kv|];
    cbn [option_map] in Hjobs; unfold done at 1; rewrite Hjobs;
    unfold andthen, iterate, done;
    rewrite (each_job_walk E fuel IH parent _ _ [] _ Hitems Hs Hd);
    cbn [app]; rewrite <- List.app_assoc; reflexivity.
Qed.

Lemma served_all E nodes :
  Forall (served E) nodes ->
  fold_right (fun c rest => served E c /\ rest) True nodes.
Proof.
  induction 1 as [|nd nodes Hnd _ IH]; cbn [fold_right]; [exact I|].
  split; assumption.
Qed.

Lemma depth_all fuel nodes :
  Forall (fun nd => depth nd <= fuel) nodes ->
  fold_right (fun c d => Nat.max (depth c) d) 0 nodes < S fuel.
Proof.
  induction 1 as [|nd nodes Hnd _ IH]; cbn [fold_right]; lia.
Qed.

End FoldersFacts.

(** ** The claims *)




(** C2: a row whose pipeline type is Pipeline Script or Unknown has
    [is_modular] false and NA for the shared library and the module name, and
    the pass that produced it sent its five requests to Jenkins and none to
    GitLab: the Jenkinsfile was neither fetched nor classified. *)
Theorem not_from_scm_forces_na (E : Env) (n p u : string) (h h' : history)
    (row : Main.ReportRow) :
  Main.process_job E (n, p, u) h = Ok (row, h') ->
  Main.pipeline_type row = "Pipeline Script"
  \/ Main.pipeline_type row = "Unknown or not a Pipeline job" ->
  Main.is_modular row = PyBool false
  /\ Main.shared_library row = "NA"
  /\ Main.module_name row = "NA"
  /\ h' = (h ++ Answers.config_requests u ++ [Answers.last_build_request u])%list
  /\ Forall (fun rq => server rq = Jenkins)
            (Answers.config_requests u ++ [Answers.last_build_request u])%list.
Proof.
  intros H Hpt.
  destruct (MainFacts.process_job_anatomy _ _ _ _ _ _ _ H)
    as (h5 & last_run & _ & _ & Hc & _ & Hh & _).
  assert (Hn : Main.not_from_scm (Main.pipeline_type row) = true)
    by (destruct Hpt as [-> | ->]; reflexivity).
  rewrite Hn in Hc. destruct Hc as (-> & Him & Hsl & Hmn).
  repeat split; try assumption.
  - rewrite Hh, <- app_assoc. reflexivity.
  - repeat constructor.
Qed.

Lemma not_from_scm_forces_na_witness :
  exists row h',
    Main.process_job Demo.unavailable ("app", "team -> app", "u/") [] = Ok (row, h')
    /\ Main.is_modular row = PyBool false
    /\ Main.shared_library row = "NA"
    /\ Main.module_name row = "NA"
    /\ h' = (Answers.config_requests "u/" ++ [Answers.last_build_request "u/"])%list.
Proof.
  eexists _, _. split; [cbv; reflexivity|].
  destruct (not_from_scm_forces_na Demo.unavailable "app" "team -> app" "u/" [] _ _
              eq_refl (or_intror eq_refl)) as (H1 & H2 & H3 & H4 & _).
  repeat split; assumption.
Defined.

(** C3: the code departs from the claim on the claim's first input: the
    names of the list keep their quotes when they are compared with the name
    to leave out, so the modular library is not left out and is returned.
    On the other two inputs of the claim the code returns what the claim
    says. *)
Theorem parse_shared_library_on_quoted_list :
  GitLabAPI.parse_shared_library
    (PyStr "@Library(['cicd-modular-library','team-lib'])_")
  = "cicd-modular-library"
  /\ GitLabAPI.parse_shared_library (PyStr "@Library(['cicd-modular-library'])_")
     = "No Shared Library"
  /\ GitLabAPI.parse_shared_library PyNone = "No Shared Library"
  /\ (forall b, GitLabAPI.parse_shared_library (PyBool b) = "No Shared Library")
  /\ (forall z, GitLabAPI.parse_shared_library (PyInt z) = "No Shared Library").
Proof. repeat split; vm_compute; reflexivity. Qed.

(** C4, as stated, fails: with a user name other than git the part before the
    colon, user name included, becomes the host of the result.  (A colon in
    the path, or a colon or a newline in the host, gives yet other results,
    whence the conditions of the amended statement.) *)
Lemma convert_scm_url_keeps_other_user :
  GitLabAPI.convert_scm_url "bob@example.com:group/project.git"
  = "https://bob@example.com/group/project.git"
  /\ GitLabAPI.convert_scm_url ("bob" ++ "@" ++ "example.com" ++ ":" ++ "group/project.git")
     <> "https://" ++ "example.com" ++ "/" ++ "group/project.git"
  /\ GitLabAPI.convert_scm_url "git@example.com:group:project"
     = "https://example.com/https://group/project"
  /\ GitLabAPI.convert_scm_url ("git@exam" ++ String Str.LF "ple.com:group")
     = "git@exam" ++ String Str.LF "https://ple.com/group".
Proof.
  split; [reflexivity|]. split; [|split; reflexivity].
  intros H. vm_compute in H. discriminate H.
Qed.

(** C4, amended: [convert_scm_url] maps every SSH-style URL [git@host:path],
    where [host] has no colon and no newline and [path] has no colon, to
    [https://host/path], and returns every URL that starts with [https://]
    unchanged. *)
Theorem convert_scm_url_git_ssh (host path u : string) :
  Str.contains ":" host = false ->
  Str.contains (String Str.LF "") host = false ->
  Str.contains ":" path = false ->
  Str.startswith "https://" u = true ->
  GitLabAPI.convert_scm_url ("git@" ++ host ++ ":" ++ path)
  = "https://" ++ host ++ "/" ++ path
  /\ GitLabAPI.convert_scm_url u = u.
Proof.
  intros Hc Hn Hp Hu. split.
  - apply UrlFacts.convert_git; assumption.
  - unfold GitLabAPI.convert_scm_url. rewrite Hu. reflexivity.
Qed.

Lemma convert_scm_url_git_ssh_witness :
  GitLabAPI.convert_scm_url ("git@" ++ "domain.com" ++ ":" ++ "group/project.git")
  = "https://" ++ "domain.com" ++ "/" ++ "group/project.git"
  /\ GitLabAPI.convert_scm_url "https://domain.com/group/project.git"
     = "https://domain.com/group/project.git".
Proof.
  apply (convert_scm_url_git_ssh "domain.com" "group/project.git"
           "https://domain.com/group/project.git"); reflexivity.
Defined.

(** C5, as stated, fails: a URL whose first colon comes after a newline is
    rewritten again by a second application. *)
Lemma convert_scm_url_not_idempotent :
  let x := String Str.LF "git@h:p" in
  GitLabAPI.convert_scm_url x = String Str.LF "https://h/p"
  /\ GitLabAPI.convert_scm_url (GitLabAPI.convert_scm_url x)
     = String Str.LF "https://https///h/p"
  /\ GitLabAPI.convert_scm_url (GitLabAPI.convert_scm_url x)
     <> GitLabAPI.convert_scm_url x.
Proof.
  cbv zeta. split; [reflexivity|]. split; [reflexivity|].
  intros H. vm_compute in H. discriminate H.
Qed.

(** C5, amended: [convert_scm_url] is idempotent on every string that has no
    colon or has no newline before its first colon, in particular on every
    string of one line; and on no other string. *)
Theorem convert_scm_url_idempotent (x : string) :
  Url.one_line_to_colon x = true <->
  GitLabAPI.convert_scm_url (GitLabAPI.convert_scm_url x)
  = GitLabAPI.convert_scm_url x.
Proof.
  split.
  - unfold Url.one_line_to_colon. intros H.
    destruct (Url.first_colon x) as [j|] eqn:Hj.
    + unfold GitLabAPI.convert_scm_url at 2 3.
      destruct (Str.startswith "https://" x) eqn:Hx.
      * unfold GitLabAPI.convert_scm_url. rewrite Hx. reflexivity.
      * unfold GitLabAPI.convert_scm_url.
        rewrite (UrlFacts.sub_scm_first_line _ _ Hj). reflexivity.
    + apply negb_true_iff in H.
      rewrite !(UrlFacts.convert_no_colon _ H). reflexivity.
  - intros H. destruct (Url.one_line_to_colon x) eqn:Hx; [reflexivity|].
    exfalso. exact (UrlFacts.convert_twice_differs x Hx H).
Qed.

Lemma convert_scm_url_idempotent_witness :
  GitLabAPI.convert_scm_url
    (GitLabAPI.convert_scm_url "git@domain.com:group/project.git")
  = GitLabAPI.convert_scm_url "git@domain.com:group/project.git".
Proof.
  apply (proj1 (convert_scm_url_idempotent "git@domain.com:group/project.git")).
  reflexivity.
Defined.




(** C7, as stated, fails: an attempt on main that fails with one of the three
    markers in its body ends the attempts, and master is not tried although
    no attempt succeeded. *)
Lemma master_not_tried_after_marker :
  let E := Demo.branch_missing in
  let scm := "https://git.org-country.internal.replace-organization-name.com/team/app.git" in
  let main := Fetch.raw_request scm "Jenkinsfile" "main" in
  let master := Fetch.raw_request scm "Jenkinsfile" "master" in
  status_code (respond E [] main) <> 200%Z
  /\ GitLabAPI.get_jenkinsfile_content E scm (Some "Jenkinsfile") (Some "**") "job" []
     = Ok (Some "Branch Not Found", [main])
  /\ ~ In master [main].
Proof.
  cbv zeta. split; [discriminate|]. split; [reflexivity|].
  intros [H|[]]. vm_compute in H. discriminate H.
Qed.

(** C7, amended: with branch specifier ** or Any the function tries main
    first; it tries master next exactly when the answer for main has a status
    other than 200 and none of the three markers in its body; an answer with
    status 200 ends the attempts and its body is returned, and a failed
    answer with a marker ends them with the value of the marker.  With any
    other branch specifier exactly one branch is tried: the specifier with
    every occurrence of */ removed. *)
Theorem branches_tried (E : Env) (scm path b job : string) (h : history) :
  scm <> "NA" -> path <> "NA" ->
  let main := Fetch.raw_request scm path "main" in
  let master := Fetch.raw_request scm path "master" in
  let other := Fetch.raw_request scm path (Str.replace "*/" "" b) in
  let run := GitLabAPI.get_jenkinsfile_content E scm (Some path) (Some b) job h in
  (b = "**" \/ b = "Any" ->
   let r1 := respond E h main in
   let r2 := respond E (h ++ [main])%list master in
   (status_code r1 = 200%Z -> run = Ok (Some (text r1), h ++ [main])%list)
   /\ (status_code r1 <> 200%Z -> Fetch.marker (text r1) <> None ->
       run = Ok (Fetch.marker (text r1), h ++ [main])%list)
   /\ (status_code r1 <> 200%Z -> Fetch.marker (text r1) = None ->
       run = Ok (Fetch.outcome r2, h ++ [main; master])%list))
  /\ (b <> "**" -> b <> "Any" ->
      run = Ok (Fetch.outcome (respond E h other), h ++ [other])%list).
Proof.
  intros Hs Hp. cbv zeta. split.
  - intros Hb. rewrite (FetchFacts.content_wildcard _ _ _ _ _ _ Hs Hp Hb).
    rewrite FetchFacts.try_branches_step.
    fold (Fetch.raw_request scm path "main").
    repeat split.
    + intros H200. apply Z.eqb_eq in H200.
      unfold Fetch.settles, Fetch.outcome. rewrite H200. reflexivity.
    + intros H200 Hm. apply Z.eqb_neq in H200.
      unfold Fetch.settles, Fetch.outcome. rewrite H200.
      destruct (Fetch.marker _); [reflexivity|contradiction].
    + intros H200 Hm. apply Z.eqb_neq in H200.
      unfold Fetch.settles. rewrite H200, Hm. cbn [orb].
      rewrite FetchFacts.try_branches_last, <- app_assoc. reflexivity.
  - intros Hb1 Hb2. rewrite (FetchFacts.content_single _ _ _ _ _ _ Hs Hp Hb1 Hb2).
    apply FetchFacts.try_branches_last.
Qed.

Lemma branches_tried_witness :
  let E := Demo.scm_jobs Demo.unauthorized in
  let scm := "https://git.org-country.internal.replace-organization-name.com/team/app.git" in
  GitLabAPI.get_jenkinsfile_content E scm (Some "ci/Jenkinsfile") (Some "**") "job" []
  = Ok (None, [Fetch.raw_request scm "ci/Jenkinsfile" "main";
               Fetch.raw_request scm "ci/Jenkinsfile" "master"]).
Proof.
  cbv zeta.
  refine (proj2 (proj2 (proj1
    (branches_tried (Demo.scm_jobs Demo.unauthorized)
       "https://git.org-country.internal.replace-organization-name.com/team/app.git"
       "ci/Jenkinsfile" "**" "job" [] _ _) _)) _ _).
  - discriminate.
  - discriminate.
  - left. reflexivity.
  - discriminate.
  - reflexivity.
Defined.

(** C8: a job without a last run is stale; a last run is stale exactly when
    it is strictly before the instant 90 days before the reading of the
    clock, so a run 91 days before it is stale and runs 90 or 89 days before
    it are not. *)
Theorem staleness (E : Env) (n p u : string) (h h' : history)
    (row : Main.ReportRow) (today t : datetime) :
  Main.process_job E (n, p, u) h = Ok (row, h') ->
  Helpers.is_older_than_three_months today (Some (today - Helpers.days 91)%Z) = Some true
  /\ Helpers.is_older_than_three_months today (Some (today - Helpers.days 90)%Z) = Some false
  /\ Helpers.is_older_than_three_months today (Some (today - Helpers.days 89)%Z) = Some false
  /\ Helpers.is_older_than_three_months today (Some t)
     = Some (t <? today - Helpers.days 90)%Z
  /\ exists h5 last_run,
       JenkinsAPI.fetch_last_run E u h5 = Ok (last_run, h')
       /\ match last_run with
          | None => Main.older_than_three_months row = PyBool true
          | Some t' =>
              Main.older_than_three_months row
              = PyBool (t' <? now E h' - Helpers.days 90)%Z
          end.
Proof.
  intros H. unfold Helpers.is_older_than_three_months, Helpers.days.
  split; [f_equal; apply Z.ltb_lt; lia|].
  split; [f_equal; apply Z.ltb_ge; lia|].
  split; [f_equal; apply Z.ltb_ge; lia|].
  split; [reflexivity|].
  destruct (MainFacts.process_job_anatomy _ _ _ _ _ _ _ H)
    as (h5 & last_run & _ & _ & _ & Hf & _ & Hl).
  exists h5, last_run. split; [exact Hf|].
  destruct last_run as [t'|]; apply Hl.
Qed.

Lemma staleness_witness :
  exists row h',
    Main.process_job Demo.unavailable ("app", "team -> app", "u/") [] = Ok (row, h')
    /\ Main.older_than_three_months row = PyBool true
    /\ Helpers.is_older_than_three_months 0%Z (Some (0 - Helpers.days 91)%Z) = Some true
    /\ Helpers.is_older_than_three_months 0%Z (Some (0 - Helpers.days 89)%Z) = Some false.
Proof.
  eexists _, _. split; [cbv; reflexivity|].
  destruct (staleness Demo.unavailable "app" "team -> app" "u/" [] _ _ 0%Z 0%Z eq_refl)
    as (H91 & _ & H89 & _ & _).
  split; [reflexivity|]. split; [exact H91|exact H89].
Defined.

(** C9: when the pipeline type of a row is Pipeline Script from SCM and the
    fetch of the Jenkinsfile, made after the four readers of the
    configuration, returned [None], then [check_modularity] gave the text
    Failed to fetch Jenkinsfile, which counts as true, so the row holds that
    text in [is_modular], No Shared Library as shared library (the value of
    [parse_shared_library] on [None]) and NA as module name. *)
Theorem failed_fetch_counts_as_modular (E : Env) (n p u : string)
    (h h' h5 : history) (row : Main.ReportRow) :
  Main.process_job E (n, p, u) h = Ok (row, h') ->
  Main.pipeline_type row = "Pipeline Script from SCM" ->
  GitLabAPI.get_jenkinsfile_content E (Main.scm_url row) (Main.jenkinsfile_path row)
    (Main.branch_specifier row) n (h ++ Answers.config_requests u)%list
  = Ok (None, h5) ->
  GitLabAPI.check_modularity None = PyStr "Failed to fetch Jenkinsfile"
  /\ truthy (GitLabAPI.check_modularity None) = true
  /\ GitLabAPI.parse_shared_library (of_opt None) = "No Shared Library"
  /\ Main.is_modular row = PyStr "Failed to fetch Jenkinsfile"
  /\ Main.shared_library row = "No Shared Library"
  /\ Main.module_name row = "NA".
Proof.
  intros H Hpt Hfetch.
  split; [reflexivity|]. split; [reflexivity|]. split; [reflexivity|].
  destruct (MainFacts.process_job_anatomy _ _ _ _ _ _ _ H)
    as (h5' & last_run & _ & _ & Hc & _).
  rewrite Hpt in Hc. cbn [Main.not_from_scm String.eqb Ascii.eqb Bool.eqb orb] in Hc.
  destruct Hc as (content & Hg & Him & Hrest).
  rewrite Hfetch in Hg. inversion Hg; subst content h5'; clear Hg.
  rewrite Him in Hrest. cbn in Hrest. destruct Hrest as (Hsl & Hmn).
  rewrite Hsl in Hmn. cbn in Hmn.
  repeat split; assumption.
Qed.

Lemma failed_fetch_counts_as_modular_witness :
  exists row h',
    Main.process_job (Demo.scm_jobs Demo.unauthorized)
      ("app", "team -> app", "https://jenkins/job/team/job/app/") [] = Ok (row, h')
    /\ Main.is_modular row = PyStr "Failed to fetch Jenkinsfile"
    /\ Main.shared_library row = "No Shared Library"
    /\ Main.module_name row = "NA".
Proof.
  eassert (Hrun : Main.process_job (Demo.scm_jobs Demo.unauthorized)
                    ("app", "team -> app", "https://jenkins/job/team/job/app/") []
                  = Ok _) by (cbv; reflexivity).
  eexists _, _. split; [exact Hrun|].
  edestruct (fun h5 => failed_fetch_counts_as_modular _ _ _ _ _ _ h5 _ Hrun eq_refl)
    as (_ & _ & _ & H1 & H2 & H3).
  - cbv. reflexivity.
  - repeat split; assumption.
Defined.

(** C10: a string without a colon is returned unchanged by
    [convert_scm_url], NA in particular; and when the SCM URL, converted or
    not, or the Jenkinsfile path is NA, [get_jenkinsfile_content] returns
    [None] and sends no request. *)
Theorem missing_scm_is_preserved (E : Env) (s scm : string)
    (path branch : option string) (job : string) (h : history) :
  Str.contains ":" s = false ->
  scm = "NA" \/ path = Some "NA" ->
  GitLabAPI.convert_scm_url s = s
  /\ GitLabAPI.convert_scm_url "NA" = "NA"
  /\ GitLabAPI.get_jenkinsfile_content E scm path branch job h = Ok (None, h)
  /\ GitLabAPI.get_jenkinsfile_content E (GitLabAPI.convert_scm_url "NA") path branch job h
     = Ok (None, h).
Proof.
  intros Hs Hna. split; [apply UrlFacts.convert_no_colon; exact Hs|].
  split; [reflexivity|]. split; [|reflexivity].
  unfold GitLabAPI.get_jenkinsfile_content.
  destruct Hna as [-> | ->]; [reflexivity|].
  rewrite orb_true_r. reflexivity.
Qed.

Lemma missing_scm_is_preserved_witness :
  GitLabAPI.convert_scm_url "NA" = "NA"
  /\ GitLabAPI.get_jenkinsfile_content Demo.unavailable "NA" (Some "Jenkinsfile")
       (Some "**") "job" []
     = Ok (None, []).
Proof.
  destruct (missing_scm_is_preserved Demo.unavailable "NA" "NA" (Some "Jenkinsfile")
              (Some "**") "job" [] eq_refl (or_introl eq_refl))
    as (H1 & _ & H3 & _).
  split; [exact H1|exact H3].
Defined.

(** ** Further properties *)

(** X1: when the server describes a tree of folders, [fetch_jobs] reports
    exactly the jobs of the tree, depth first in the order listed, each with
    the path made of the parent path, the names of the folders above the job
    and its own name, joined by arrows; it asks for the listing of each
    folder once, in the order it meets them.  It does so at every depth of
    nesting. *)
Theorem fetch_jobs_walks_the_folders (E : Env) (fuel : nat)
    (api_url parent : string) (nodes : list Folders.Node) (h : history) :
  Folders.listing_at E api_url nodes ->
  Forall (Folders.served E) nodes ->
  Forall (fun nd => Folders.depth nd <= fuel) nodes ->
  Discovery.fetch_jobs E (S fuel) api_url parent h
  = Done (flat_map (Folders.jobs_of parent) nodes)
         (h ++ {| server := Jenkins; url := api_url |}
            :: flat_map Folders.visits nodes)%list.
Proof.
  intros Hl Hs Hd. apply FoldersFacts.fetch_jobs_walk.
  - exact Hl.
  - apply FoldersFacts.served_all. exact Hs.
  - apply FoldersFacts.depth_all. exact Hd.
Qed.

Lemma fetch_jobs_walks_the_folders_witness :
  Discovery.fetch_jobs DemoTree.env 3 ("J/" ++ Discovery.tree_query) "" []
  = Done [("ingest", "platform -> data -> ingest", "J/job/platform/job/data/job/ingest/");
          ("deploy", "platform -> deploy", "J/job/platform/job/deploy/");
          ("nightly", "nightly", "J/job/nightly/")]
         [{| server := Jenkins; url := "J/" ++ Discovery.tree_query |};
          {| server := Jenkins; url := "J/job/platform/" ++ Discovery.tree_query |};
          {| server := Jenkins; url := "J/job/platform/job/data/" ++ Discovery.tree_query |}].
Proof.
  assert (Hdata : Folders.listing_at DemoTree.env
                    ("J/job/platform/job/data/" ++ Discovery.tree_query)
                    [Folders.Leaf "ingest" "J/job/platform/job/data/job/ingest/"]).
  { intros h. eexists _, _. split; [reflexivity|]. split; [reflexivity|].
    repeat constructor. }
  assert (Hplatform : Folders.listing_at DemoTree.env
                        ("J/job/platform/" ++ Discovery.tree_query)
                        [Folders.Folder "data" "J/job/platform/job/data/"
                           [Folders.Leaf "ingest" "J/job/platform/job/data/job/ingest/"];
                         Folders.Leaf "deploy" "J/job/platform/job/deploy/"]).
  { intros h. eexists _, _. split; [reflexivity|]. split; [reflexivity|].
    constructor; [|repeat constructor].
    split; [reflexivity|]. split; [reflexivity|discriminate]. }
  assert (Hroot : Folders.listing_at DemoTree.env ("J/" ++ Discovery.tree_query)
                    [Folders.Folder "platform" "J/job/platform/"
                       [Folders.Folder "data" "J/job/platform/job/data/"
                          [Folders.Leaf "ingest" "J/job/platform/job/data/job/ingest/"];
                        Folders.Leaf "deploy" "J/job/platform/job/deploy/"];
                     Folders.Leaf "nightly" "J/job/nightly/"]).
  { intros h. eexists _, _. split; [reflexivity|]. split; [reflexivity|].
    constructor; [|repeat constructor].
    split; [reflexivity|]. split; [reflexivity|discriminate]. }
  apply (fetch_jobs_walks_the_folders DemoTree.env 2 _ "" _ [] Hroot).
  - constructor; [|constructor; [exact I|constructor]].
    cbn [Folders.served fold_right]. split; [exact Hplatform|].
    split; [|split; [exact I|exact I]].
    split; [exact Hdata|]. split; exact I.
  - repeat constructor.
Defined.

(** X2: when the body of the answer decodes to a dict whose jobs, if it has
    any, are dicts with a name and a URL that are strings and without a jobs
    key, [fetch_jobs] sends that one request and reports the jobs in the
    order listed, each with the parent path and the arrow before its name;
    a dict without a jobs key gives no job.  The status of the answer plays
    no part. *)
Theorem flat_listing (E : Env) (fuel : nat) (api_url parent : string)
    (h : history) (fields : list (string * Json)) (items : list Json)
    (entries : list (string * string)) :
  let rq := {| server := Jenkins; url := api_url |} in
  json E (text (respond E h rq)) = Some (JObj fields) ->
  match Tree.lookup "jobs" (JObj fields) with
  | Some v => v
  | None => JArr []
  end = JArr items ->
  Forall2 Tree.leaf_entry items entries ->
  Discovery.fetch_jobs E (S fuel) api_url parent h
  = Done (map (Tree.reported parent) entries) (h ++ [rq])%list.
Proof.
  intros rq Hj Hjobs Hl. cbn [Discovery.fetch_jobs].
  unfold andthen at 1. unfold lift, get. fold rq. rewrite Hj.
  unfold andthen at 1. unfold done at 1.
  unfold andthen at 1. unfold Discovery.dict_get.
  cbn [Tree.lookup] in Hjobs.
  destruct (find (fun kv => String.eqb (fst kv) "jobs") fields) as [kv|];
    cbn [option_map] in Hjobs; unfold done at 1; rewrite Hjobs;
    unfold andthen, Discovery.iterate, done;
    rewrite (DiscoveryFacts.each_job_leaves _ _ _ _ _ _ Hl); reflexivity.
Qed.

Lemma flat_listing_witness :
  Discovery.fetch_jobs DemoTree.env 1 ("J/job/platform/job/data/" ++ Discovery.tree_query)
    "platform -> data" []
  = Done [("ingest", "platform -> data -> ingest", "J/job/platform/job/data/job/ingest/")]
         [{| server := Jenkins;
             url := "J/job/platform/job/data/" ++ Discovery.tree_query |}].
Proof.
  apply (flat_listing DemoTree.env 0 _ "platform -> data" []
           [("jobs", JArr [DemoTree.leaf "ingest" "J/job/platform/job/data/job/ingest/"])]
           [DemoTree.leaf "ingest" "J/job/platform/job/data/job/ingest/"]
           [("ingest", "J/job/platform/job/data/job/ingest/")]).
  - reflexivity.
  - reflexivity.
  - repeat constructor.
Defined.

(** X3: the crumb comes first and is needed: when its request is answered
    with a status other than 200 [main] ends with the exception of
    [get_crumb]; and a run of [main] that returns has had status 200 for the
    crumb, then discovered the jobs from the root listing with an empty
    parent path, and written the header and one record per discovered job,
    in the order of discovery. *)
Theorem main_needs_crumb_and_reports_discovered (E : Env) (fuel : nat)
    (jenkins_url : string) (h h' : history) (file : list (list PyVal)) :
  let crumb_request :=
    {| server := Jenkins; url := jenkins_url ++ "/crumbIssuer/api/json" |} in
  (status_code (respond E h crumb_request) <> 200%Z ->
   Discovery.main E fuel jenkins_url h
   = Failed (Failure "Failed to fetch Jenkins crumb"))
  /\ (Discovery.main E fuel jenkins_url h = Done file h' ->
      status_code (respond E h crumb_request) = 200%Z
      /\ exists jobs rows h2,
           Discovery.fetch_jobs E fuel (jenkins_url ++ "/" ++ Discovery.tree_query) ""
             (h ++ [crumb_request])%list = Done jobs h2
           /\ Main.loop E jobs [] h2 = Ok (rows, h')
           /\ map Main.job_of rows = jobs
           /\ file = Helpers.header :: map Main.cells rows).
Proof.
  intros crumb_request. unfold Discovery.main, Discovery.get_crumb.
  unfold andthen at 1 2 4 5. unfold lift at 1 3, get. fold crumb_request.
  split.
  - intros Hs. apply Z.eqb_neq in Hs. rewrite Hs. reflexivity.
  - destruct (status_code (respond E h crumb_request) =? 200)%Z eqn:Hs;
      [|discriminate].
    intros H. split; [apply Z.eqb_eq; exact Hs|].
    destruct (json E (text (respond E h crumb_request))) as [body|]; [|discriminate].
    destruct (Discovery.subscript body "crumb" (h ++ [crumb_request])%list)
      as [crumb h1|e|g] eqn:Hc; try discriminate.
    apply DiscoveryFacts.subscript_lookup in Hc. destruct Hc as [_ ->].
    apply DiscoveryFacts.andthen_done in H. destruct H as (jobs & h2 & Hf & H).
    unfold lift, Main.main in H.
    destruct (bind (Main.loop E jobs []) _ h2) as [[file0 h3]|e] eqn:Hm; [|discriminate].
    inversion H; subst file0 h3; clear H.
    apply MFacts.bind_ok in Hm. destruct Hm as (rows & h4 & Hl & Hm).
    inversion Hm; subst file h4; clear Hm.
    destruct (MainFacts.loop_rows _ _ _ _ _ _ Hl) as (new & -> & Hn).
    exists jobs, new, h2. cbn [app] in *. repeat split; assumption.
Qed.

Lemma main_needs_crumb_and_reports_discovered_witness :
  exists file h',
    Discovery.main DemoTree.env 3 "J" [] = Done file h'
    /\ List.length file = 4.
Proof.
  eassert (Hrun : Discovery.main DemoTree.env 3 "J" [] = Done _ _)
    by (vm_compute; reflexivity).
  eexists _, _. split; [exact Hrun|].
  destruct (proj2 (main_needs_crumb_and_reports_discovered DemoTree.env 3 "J" [] _ _)
              Hrun) as (_ & jobs & rows & h2 & _ & _ & _ & Hfile).
  reflexivity.
Defined.

(** X4: the team of a row is the first segment of the path of its job: for a
    job listed under the folders [top -> ...], and for a job at the top whose
    path is [top], the team is [top], provided [top] has no [>] in it. *)
Theorem team_is_top_folder (E : Env) (n top rest u : string) (h h1 h2 : history)
    (row1 row2 : Main.ReportRow) :
  Str.contains ">" top = false ->
  Main.process_job E (n, top ++ " -> " ++ rest, u) h = Ok (row1, h1) ->
  Main.process_job E (n, top, u) h = Ok (row2, h2) ->
  Main.team row1 = top /\ Main.team row2 = top.
Proof.
  intros Htop H1 H2.
  destruct (MainFacts.process_job_anatomy _ _ _ _ _ _ _ H1) as (_ & _ & _ & -> & _).
  destruct (MainFacts.process_job_anatomy _ _ _ _ _ _ _ H2) as (_ & _ & _ & -> & _).
  unfold Str.split.
  rewrite (SplitFacts.split_first_segment _ _ _ Htop).
  rewrite (SplitFacts.split_one_segment _ _ Htop). split; reflexivity.
Qed.

Lemma team_is_top_folder_witness :
  exists row1 row2 h1 h2,
    Main.process_job Demo.unavailable ("ingest", "platform" ++ " -> " ++ "data -> ingest", "u/") []
    = Ok (row1, h1)
    /\ Main.process_job Demo.unavailable ("ingest", "platform", "u/") [] = Ok (row2, h2)
    /\ Main.team row1 = "platform" /\ Main.team row2 = "platform".
Proof.
  eassert (H1 : Main.process_job Demo.unavailable
                  ("ingest", "platform" ++ " -> " ++ "data -> ingest", "u/") [] = Ok _)
    by (cbv; reflexivity).
  eassert (H2 : Main.process_job Demo.unavailable ("ingest", "platform", "u/") [] = Ok _)
    by (cbv; reflexivity).
  eexists _, _, _, _. split; [exact H1|]. split; [exact H2|].
  exact (team_is_top_folder Demo.unavailable "ingest" "platform" "data -> ingest" "u/"
           [] _ _ _ _ eq_refl H1 H2).
Defined.

(** X5: an exception in the pass of one job ends the run with that exception:
    the rows of the jobs before it are lost and nothing is written. *)
Theorem one_failure_loses_all (E : Env) (before rest : list Main.Job)
    (job : Main.Job) (h h1 : history) (rows : list Main.ReportRow) (e : exn) :
  Main.loop E before [] h = Ok (rows, h1) ->
  Main.process_job E job h1 = Raise e ->
  Main.main E (before ++ job :: rest) h = Raise e.
Proof.
  intros Hb Hj. unfold Main.main, bind.
  rewrite RunFacts.loop_app. unfold bind. rewrite Hb.
  cbn [Main.loop]. unfold bind. rewrite Hj. reflexivity.
Qed.

Lemma one_failure_loses_all_witness :
  Main.main DemoTree.mixed
    ([("app", "team -> app", "good/")] ++ ("old", "team -> old", "bad/")
       :: [("lib", "team -> lib", "good/")]) []
  = Raise ParseError.
Proof.
  eassert (Hb : Main.loop DemoTree.mixed [("app", "team -> app", "good/")] [] [] = Ok _)
    by (cbv; reflexivity).
  eapply (one_failure_loses_all DemoTree.mixed _ _ _ [] _ _ ParseError Hb).
  cbv. reflexivity.
Defined.

(** X6: a job whose configuration has a Git URL element without text makes
    the loop body raise AttributeError, at [convert_scm_url], before the
    Jenkinsfile path is read. *)
Theorem empty_url_raises (E : Env) (n p u pt : string) (h h1 h2 : history) :
  JenkinsAPI.get_pipeline_type E u h = Ok (pt, h1) ->
  JenkinsAPI.get_scm_url E u h1 = Ok (None, h2) ->
  Main.process_job E (n, p, u) h = Raise AttributeError.
Proof.
  intros H1 H2. unfold Main.process_job.
  rewrite (MFacts.bind_step _ _ _ _ _ _ _ H1).
  rewrite (MFacts.bind_step _ _ _ _ _ _ _ H2).
  reflexivity.
Qed.

Lemma empty_url_raises_witness :
  Main.process_job DemoTree.empty_url ("app", "team -> app", "u/") []
  = Raise AttributeError.
Proof.
  eapply (empty_url_raises DemoTree.empty_url "app" "team -> app" "u/" _ [] _ _).
  - cbv. reflexivity.
  - cbv. reflexivity.
Defined.

(** X7: [get_jenkinsfile_content] with an SCM URL other than NA raises
    AttributeError when the Jenkinsfile path is [None], and, with a path
    other than NA, when the branch specifier is [None]; it sends no request
    before. *)
Theorem missing_text_raises (E : Env) (scm p job : string)
    (branch : option string) (h : history) :
  scm <> "NA" -> p <> "NA" ->
  GitLabAPI.get_jenkinsfile_content E scm None branch job h = Raise AttributeError
  /\ GitLabAPI.get_jenkinsfile_content E scm (Some p) None job h = Raise AttributeError.
Proof.
  intros Hs Hp. apply String.eqb_neq in Hs, Hp.
  unfold GitLabAPI.get_jenkinsfile_content. rewrite Hs, Hp. cbn [orb]. split.
  - destruct (GitLabAPI.is_wildcard branch); [reflexivity|].
    destruct branch; reflexivity.
  - reflexivity.
Qed.

Lemma missing_text_raises_witness :
  GitLabAPI.get_jenkinsfile_content Demo.unavailable "https://h/p" None (Some "**") "job" []
  = Raise AttributeError
  /\ GitLabAPI.get_jenkinsfile_content Demo.unavailable "https://h/p" (Some "Jenkinsfile")
       None "job" []
     = Raise AttributeError.
Proof.
  apply (missing_text_raises Demo.unavailable "https://h/p" "Jenkinsfile" "job"
           (Some "**") []); discriminate.
Defined.

(** X8: a pass of the loop body that returns has sent, in this order, four
    requests for the configuration of the job, at most two requests to
    GitLab, none for a job not defined from SCM, and one request for the
    last build. *)
Theorem requests_of_a_job (E : Env) (n p u : string) (h h' : history)
    (row : Main.ReportRow) :
  Main.process_job E (n, p, u) h = Ok (row, h') ->
  exists sent,
    h' = (h ++ Answers.config_requests u ++ sent ++ [Answers.last_build_request u])%list
    /\ List.length sent <= 2
    /\ Forall (fun rq => server rq = GitLab) sent
    /\ (Main.not_from_scm (Main.pipeline_type row) = true -> sent = []).
Proof.
  intros H.
  destruct (MainFacts.process_job_anatomy _ _ _ _ _ _ _ H)
    as (h5 & last_run & _ & _ & Hc & _ & -> & _).
  destruct (Main.not_from_scm (Main.pipeline_type row)).
  - destruct Hc as (-> & _). exists []. cbn [app].
    rewrite <- List.app_assoc. repeat split; [cbn; lia|constructor].
  - destruct Hc as (content & Hg & _).
    destruct (RunFacts.content_sent _ _ _ _ _ _ _ _ Hg) as (sent & -> & Hl & Hf).
    exists sent. rewrite <- !List.app_assoc.
    repeat split; [exact Hl|exact Hf|discriminate].
Qed.

Lemma requests_of_a_job_witness :
  exists row h' sent,
    Main.process_job (Demo.scm_jobs Demo.unauthorized) ("app", "team -> app", "u/") []
    = Ok (row, h')
    /\ h' = (Answers.config_requests "u/" ++ sent ++ [Answers.last_build_request "u/"])%list
    /\ List.length sent <= 2.
Proof.
  eassert (Hrun : Main.process_job (Demo.scm_jobs Demo.unauthorized)
                    ("app", "team -> app", "u/") [] = Ok _) by (cbv; reflexivity).
  destruct (requests_of_a_job _ _ _ _ _ _ _ Hrun) as (sent & Hh & Hl & _).
  eexists _, _, sent. split; [exact Hrun|]. split; [exact Hh|exact Hl].
Defined.

(** X9: when the fetch of the Jenkinsfile ends with one of the three values
    returned for a marker (Project Not Found, Jenkinsfile Not Found, Branch
    Not Found), that value is classified as if it were the Jenkinsfile: the
    row has [is_modular] false and NA for the shared library and the module
    name, as for a Jenkinsfile that is not modular. *)
Theorem marker_value_is_classified (E : Env) (n p u body m : string)
    (h h' h5 : history) (row : Main.ReportRow) :
  Main.process_job E (n, p, u) h = Ok (row, h') ->
  Main.not_from_scm (Main.pipeline_type row) = false ->
  GitLabAPI.get_jenkinsfile_content E (Main.scm_url row) (Main.jenkinsfile_path row)
    (Main.branch_specifier row) n (h ++ Answers.config_requests u)%list
  = Ok (Some m, h5) ->
  Fetch.marker body = Some m ->
  Main.is_modular row = PyBool false
  /\ Main.shared_library row = "NA"
  /\ Main.module_name row = "NA".
Proof.
  intros H Hpt Hfetch Hm.
  destruct (MainFacts.process_job_anatomy _ _ _ _ _ _ _ H)
    as (h5' & last_run & _ & _ & Hc & _).
  rewrite Hpt in Hc. destruct Hc as (content & Hg & Him & Hrest).
  rewrite Hfetch in Hg. inversion Hg; subst content h5'; clear Hg.
  assert (Hcheck : GitLabAPI.check_modularity (Some m) = PyBool false).
  { unfold Fetch.marker in Hm.
    destruct (Str.contains "Project Not Found" body); [inversion Hm; reflexivity|].
    destruct (Str.contains "File Not Found" body); [inversion Hm; reflexivity|].
    destruct (Str.contains "Commit Not Found" body); [inversion Hm; reflexivity|].
    discriminate. }
  rewrite Hcheck in Him. rewrite Him in Hrest. cbn [truthy] in Hrest.
  destruct Hrest as (Hsl & Hmn). repeat split; assumption.
Qed.

Lemma marker_value_is_classified_witness :
  exists row h',
    Main.process_job (Demo.scm_jobs {| status_code := 404; text := "404 Project Not Found" |})
      ("app", "team -> app", "u/") [] = Ok (row, h')
    /\ Main.is_modular row = PyBool false
    /\ Main.shared_library row = "NA"
    /\ Main.module_name row = "NA".
Proof.
  eassert (Hrun : Main.process_job
                    (Demo.scm_jobs {| status_code := 404; text := "404 Project Not Found" |})
                    ("app", "team -> app", "u/") [] = Ok _) by (cbv; reflexivity).
  eexists _, _. split; [exact Hrun|].
  eapply (fun h5 Hf => marker_value_is_classified _ _ _ _ "404 Project Not Found"
                         "Project Not Found" _ _ h5 _ Hrun eq_refl Hf eq_refl).
  cbv. reflexivity.
Defined.

(** X10: in every row the loop body produces, a value of [is_modular] that
    does not count as true comes with NA for the shared library and the
    module name; the shared library No Shared Library comes with the module
    name NA; and the last column is a boolean, never [None]. *)
Theorem row_is_coherent (E : Env) (job : Main.Job) (h h' : history)
    (row : Main.ReportRow) :
  Main.process_job E job h = Ok (row, h') ->
  (truthy (Main.is_modular row) = false ->
   Main.shared_library row = "NA" /\ Main.module_name row = "NA")
  /\ (Main.shared_library row = "No Shared Library" -> Main.module_name row = "NA")
  /\ (exists b, Main.older_than_three_months row = PyBool b).
Proof.
  destruct job as [[n p] u]. intros H.
  destruct (MainFacts.process_job_anatomy _ _ _ _ _ _ _ H)
    as (h5 & last_run & _ & _ & Hc & _ & _ & Hl).
  split; [|split].
  - intros Ht. destruct (Main.not_from_scm (Main.pipeline_type row)).
    + destruct Hc as (_ & _ & Hsl & Hmn). split; assumption.
    + destruct Hc as (content & _ & _ & Hrest). rewrite Ht in Hrest. exact Hrest.
  - intros Hsl. destruct (Main.not_from_scm (Main.pipeline_type row)).
    + destruct Hc as (_ & _ & _ & Hmn). exact Hmn.
    + destruct Hc as (content & _ & _ & Hrest).
      destruct (truthy (Main.is_modular row)).
      * destruct Hrest as (_ & Hmn). rewrite Hsl in Hmn. exact Hmn.
      * apply Hrest.
  - destruct last_run as [t|].
    + destruct Hl as (_ & ->). eexists. reflexivity.
    + destruct Hl as (_ & ->). eexists. reflexivity.
Qed.

Lemma row_is_coherent_witness :
  exists row h',
    Main.process_job (Demo.scm_jobs Demo.unauthorized) ("app", "team -> app", "u/") []
    = Ok (row, h')
    /\ (Main.shared_library row = "No Shared Library" -> Main.module_name row = "NA")
    /\ (exists b, Main.older_than_three_months row = PyBool b).
Proof.
  eassert (Hrun : Main.process_job (Demo.scm_jobs Demo.unauthorized)
                    ("app", "team -> app", "u/") [] = Ok _) by (cbv; reflexivity).
  eexists _, _. split; [exact Hrun|].
  exact (proj2 (row_is_coherent _ _ _ _ _ Hrun)).
Defined.

(** X11: every record of the file written by a run that returns has thirteen
    cells, the header included: the file is rectangular. *)
Theorem file_is_rectangular (E : Env) (jobs : list Main.Job) (h h' : history)
    (file : list (list PyVal)) :
  Main.main E jobs h = Ok (file, h') ->
  Forall (fun record => List.length record = 13) file
  /\ List.length file = S (List.length jobs).
Proof.
  intros H. unfold Main.main in H.
  apply MFacts.bind_ok in H. destruct H as (rows & h1 & Hl & H).
  inversion H; subst file h1; clear H.
  destruct (MainFacts.loop_rows _ _ _ _ _ _ Hl) as (new & -> & Hn).
  unfold Helpers.save_to_csv. split.
  - constructor; [reflexivity|].
    apply Forall_forall. intros record Hin. apply in_map_iff in Hin.
    destruct Hin as (row & <- & _). reflexivity.
  - cbn [List.length app]. rewrite length_map, <- Hn, length_map. reflexivity.
Qed.

Lemma file_is_rectangular_witness :
  exists file h',
    Main.main Demo.unavailable [("a", "a", "u/"); ("b", "t -> b", "v/")] [] = Ok (file, h')
    /\ Forall (fun record => List.length record = 13) file
    /\ List.length file = 3.
Proof.
  eassert (Hrun : Main.main Demo.unavailable [("a", "a", "u/"); ("b", "t -> b", "v/")] []
                  = Ok _) by (cbv; reflexivity).
  eexists _, _. split; [exact Hrun|].
  exact (file_is_rectangular _ _ _ _ _ Hrun).
Defined.

(** X12: staleness is monotone: a run earlier than a stale run is stale, and
    a run that is stale at one reading of the clock is stale at every later
    reading. *)
Theorem stale_stays_stale (today later t earlier : datetime) :
  Helpers.is_older_than_three_months today (Some t) = Some true ->
  (earlier <= t)%Z -> (today <= later)%Z ->
  Helpers.is_older_than_three_months today (Some earlier) = Some true
  /\ Helpers.is_older_than_three_months later (Some t) = Some true.
Proof.
  unfold Helpers.is_older_than_three_months. intros H He Hl.
  assert (Hlt : (t < today - Helpers.days 90)%Z)
    by (apply Z.ltb_lt; congruence).
  clear H. split; f_equal; apply Z.ltb_lt; lia.
Qed.

Lemma stale_stays_stale_witness :
  Helpers.is_older_than_three_months (Helpers.days 100) (Some (Helpers.days 5)) = Some true
  /\ Helpers.is_older_than_three_months (Helpers.days 200) (Some (Helpers.days 9)) = Some true.
Proof.
  split.
  - apply (stale_stays_stale (Helpers.days 100) (Helpers.days 100)
             (Helpers.days 9) (Helpers.days 5)); [reflexivity| |]; vm_compute; discriminate.
  - apply (stale_stays_stale (Helpers.days 100) (Helpers.days 200)
             (Helpers.days 9) (Helpers.days 9)); [reflexivity| |]; vm_compute; discriminate.
Defined.

(** X13: the pipeline type of a row is one of the three values of
    [get_pipeline_type]; the Jenkinsfile is looked for exactly when it is
    Pipeline Script from SCM, and a row of another type has had no request
    sent to GitLab. *)
Theorem pipeline_type_values (E : Env) (n p u : string) (h h' : history)
    (row : Main.ReportRow) :
  Main.process_job E (n, p, u) h = Ok (row, h') ->
  (Main.pipeline_type row = "Pipeline Script"
   \/ Main.pipeline_type row = "Pipeline Script from SCM"
   \/ Main.pipeline_type row = "Unknown or not a Pipeline job")
  /\ (Main.not_from_scm (Main.pipeline_type row) = false
      <-> Main.pipeline_type row = "Pipeline Script from SCM")
  /\ (Main.pipeline_type row <> "Pipeline Script from SCM" ->
      h' = (h ++ Answers.config_requests u ++ [Answers.last_build_request u])%list).
Proof.
  intros H.
  destruct (RunFacts.process_job_type _ _ _ _ _ _ _ H) as (h1 & Ht).
  pose proof (RunFacts.pipeline_type_range _ _ _ _ _ Ht) as Hr.
  assert (Hiff : Main.not_from_scm (Main.pipeline_type row) = false
                 <-> Main.pipeline_type row = "Pipeline Script from SCM").
  { destruct Hr as [-> | [-> | ->]]; split; intros H0;
      solve [reflexivity | discriminate H0]. }
  split; [exact Hr|]. split; [exact Hiff|].
  intros Hne.
  destruct (MainFacts.process_job_anatomy _ _ _ _ _ _ _ H)
    as (h5 & last_run & _ & _ & Hc & _ & -> & _).
  destruct (Main.not_from_scm (Main.pipeline_type row)).
  - destruct Hc as (-> & _). rewrite <- List.app_assoc. reflexivity.
  - exfalso. apply Hne. apply Hiff. reflexivity.
Qed.

Lemma pipeline_type_values_witness :
  exists row h',
    Main.process_job (Demo.scm_jobs Demo.unauthorized) ("app", "team -> app", "u/") []
    = Ok (row, h')
    /\ Main.pipeline_type row = "Pipeline Script from SCM"
    /\ Main.not_from_scm (Main.pipeline_type row) = false.
Proof.
  eassert (Hrun : Main.process_job (Demo.scm_jobs Demo.unauthorized)
                    ("app", "team -> app", "u/") [] = Ok _) by (cbv; reflexivity).
  eexists _, _. split; [exact Hrun|].
  destruct (pipeline_type_values _ _ _ _ _ _ _ Hrun) as (_ & Hiff & _).
  split; [reflexivity|]. apply Hiff. reflexivity.
Defined.

(** X14: a URL with a scheme other than https, such as git:// or http://, is
    not turned into the https URL of its host: the scheme, up to its colon,
    is taken for the host, and the result is https:// followed by the
    scheme, three slashes and the rest. *)
Theorem convert_scm_url_scheme (scheme rest : string) :
  Str.contains ":" scheme = false ->
  Str.contains (String Str.LF "") scheme = false ->
  Str.contains ":" rest = false ->
  Str.startswith "git@" scheme = false ->
  scheme <> "https" ->
  GitLabAPI.convert_scm_url (scheme ++ "://" ++ rest)
  = "https://" ++ scheme ++ "///" ++ rest.
Proof.
  intros Hc Hn Hr Hg Hs.
  change (scheme ++ "://" ++ rest) with (scheme ++ ":" ++ ("//" ++ rest)).
  change (scheme ++ "///" ++ rest) with (scheme ++ "/" ++ ("//" ++ rest)).
  apply AddressFacts.convert_one_colon; try assumption.
  - apply AddressFacts.startswith_before_colon; [reflexivity|exact Hg].
  - destruct (Str.startswith "https://" (scheme ++ ":" ++ "//" ++ rest)) eqn:Hh;
      [|reflexivity].
    exfalso. apply Hs. apply (AddressFacts.https_scheme _ _ Hc Hh).
Qed.

Lemma convert_scm_url_scheme_witness :
  GitLabAPI.convert_scm_url ("git" ++ "://" ++ "example.com/group/project.git")
  = "https://" ++ "git" ++ "///" ++ "example.com/group/project.git".
Proof.
  apply (convert_scm_url_scheme "git" "example.com/group/project.git");
    try reflexivity.
  discriminate.
Defined.

(** X15: the result of [convert_scm_url] begins with https:// exactly when
    the URL has a colon on its first line. *)
Theorem convert_scm_url_https_iff (x : string) :
  Str.startswith "https://" (GitLabAPI.convert_scm_url x) = true
  <-> Url.first_colon x <> None.
Proof.
  split.
  - intros H Hn. unfold GitLabAPI.convert_scm_url in H.
    destruct (Str.startswith "https://" x) eqn:Hx.
    + rewrite (UrlFacts.https_first_colon _ Hx) in Hn. discriminate Hn.
    + apply UrlFacts.https_first_colon in H. unfold Re.sub in H.
      rewrite (UrlFacts.sub_scm_first_none _ None Hn) in H. discriminate H.
  - intros H. destruct (Url.first_colon x) as [j|] eqn:Hj; [|contradiction].
    apply (AddressFacts.convert_starts_https _ _ Hj).
Qed.

Lemma convert_scm_url_https_iff_witness :
  Str.startswith "https://" (GitLabAPI.convert_scm_url "git@domain.com:group/project.git")
  = true.
Proof.
  apply (proj2 (convert_scm_url_https_iff "git@domain.com:group/project.git")).
  discriminate.
Defined.

(** X16: for a URL on the GitLab host of the program, with or without the
    suffix .git, the project of the request is the path after the host with
    every slash encoded, and the file of the request is the Jenkinsfile path
    with every slash encoded; neither has a slash left. *)
Theorem request_of_host_url (proj path branch : string) :
  Str.contains (String Str.LF "") proj = false ->
  let address :=
    GitLabAPI.gitlab_host ++ "api/v4/projects/" ++ Str.replace "/" "%2F" proj
      ++ "/repository/files/" ++ Str.replace "/" "%2F" path
      ++ "/raw?ref=" ++ branch in
  url (Fetch.raw_request (GitLabAPI.gitlab_host ++ proj ++ ".git") path branch) = address
  /\ (Str.endswith ".git" (GitLabAPI.gitlab_host ++ proj) = false ->
      url (Fetch.raw_request (GitLabAPI.gitlab_host ++ proj) path branch) = address)
  /\ Str.contains "/" (Str.replace "/" "%2F" proj) = false
  /\ Str.contains "/" (Str.replace "/" "%2F" path) = false.
Proof.
  intros Hn address. unfold address, Fetch.raw_request, GitLabAPI.jenkinsfile_url.
  cbn [url]. split; [|split; [|split]].
  - assert (He : Str.endswith ".git" (GitLabAPI.gitlab_host ++ proj ++ ".git") = true)
      by (rewrite <- StrFacts.app_assoc; apply DiscoveryFacts.endswith_self).
    rewrite He, (AddressFacts.project_path_git _ Hn). reflexivity.
  - intros He. rewrite He, (AddressFacts.project_path_plain _ Hn). reflexivity.
  - apply AddressFacts.encoded_has_no_slash.
  - apply AddressFacts.encoded_has_no_slash.
Qed.

Lemma request_of_host_url_witness :
  url (Fetch.raw_request (GitLabAPI.gitlab_host ++ "team/app" ++ ".git") "ci/Jenkinsfile" "main")
  = GitLabAPI.gitlab_host ++ "api/v4/projects/" ++ "team%2Fapp"
      ++ "/repository/files/" ++ "ci%2FJenkinsfile" ++ "/raw?ref=" ++ "main".
Proof.
  exact (proj1 (request_of_host_url "team/app" "ci/Jenkinsfile" "main" eq_refl)).
Defined.

(** X17: for a URL that does not contain the address of the GitLab host of
    the program, the request still goes to that host, and its project is
    the whole URL with every slash encoded. *)
Theorem request_of_foreign_url (scm path branch : string) :
  Str.contains GitLabAPI.gitlab_host scm = false ->
  url (Fetch.raw_request scm path branch)
  = GitLabAPI.gitlab_host ++ "api/v4/projects/" ++ Str.replace "/" "%2F" scm
      ++ "/repository/files/" ++ Str.replace "/" "%2F" path
      ++ "/raw?ref=" ++ branch.
Proof.
  intros H. unfold Fetch.raw_request, GitLabAPI.jenkinsfile_url. cbn [url].
  unfold GitLabAPI.project_git_re, GitLabAPI.project_re, Re.sub.
  destruct (Str.endswith ".git" scm);
    rewrite (PatternFacts.sub_lit_none _ _ _ _ _ H); reflexivity.
Qed.

Lemma request_of_foreign_url_witness :
  url (Fetch.raw_request "https://gitlab.com/team/app.git" "Jenkinsfile" "main")
  = GitLabAPI.gitlab_host ++ "api/v4/projects/" ++ "https:%2F%2Fgitlab.com%2Fteam%2Fapp.git"
      ++ "/repository/files/" ++ "Jenkinsfile" ++ "/raw?ref=" ++ "main".
Proof.
  apply (request_of_foreign_url "https://gitlab.com/team/app.git" "Jenkinsfile" "main").
  reflexivity.
Defined.

(** X18: for a Jenkinsfile whose first at-sign opens a directive
    [@Library(['name'])_] with one name, an ASCII text without closing
    bracket and comma, [parse_shared_library] returns the name stripped of
    the whitespace and then of the quotes around it; except that a name
    that is cicd-modular-library once stripped of whitespace gives No Shared
    Library. *)
Theorem shared_library_of_directive (pre name rest : string) :
  Str.contains "@" pre = false ->
  name <> "" ->
  Text.all_of Text.is_ascii name = true ->
  Str.contains "]" name = false ->
  Str.contains "," name = false ->
  GitLabAPI.parse_shared_library
    (PyStr (pre ++ "@Library(['" ++ name ++ "'])_" ++ rest))
  = if String.eqb (Str.strip name) "cicd-modular-library"
    then "No Shared Library"
    else Str.strip_chars "'" (Str.strip name).
Proof.
  intros Hp Hne _ Hb Hc. unfold GitLabAPI.parse_shared_library, Re.search.
  destruct (PatternFacts.search_skips "@" "Library(['"
              (Re.Cat (Re.Grp (Re.Rep false 1 (Re.other_than "]"%char))) (Re.Lit "'])_"))
              pre ("@Library(['" ++ name ++ "'])_" ++ rest) None Hp) as (prev' & Hs).
  change (Re.Cat (Re.Lit "@Library(['")
            (Re.Cat (Re.Grp (Re.Rep false 1 (Re.other_than "]"%char))) (Re.Lit "'])_")))
    with GitLabAPI.library_re in Hs.
  rewrite Hs, (ParseFacts.search_hit _ _ _ _ (ParseFacts.library_hit prev' _ rest Hne Hb)).
  unfold Re.group. cbn [Re.groups Nat.sub nth]. unfold Str.split.
  rewrite (ParseFacts.split_one_piece _ _ "" Hc).
  cbn [Str.rev_string append filter].
  destruct (String.eqb (Str.strip name) "cicd-modular-library"); reflexivity.
Qed.

Lemma shared_library_of_directive_witness :
  GitLabAPI.parse_shared_library
    (PyStr ("// build" ++ "@Library(['" ++ " 'team-lib' " ++ "'])_" ++ " import x"))
  = "team-lib".
Proof.
  apply (shared_library_of_directive "// build" " 'team-lib' " " import x");
    try reflexivity.
  discriminate.
Defined.

(** X19: a Jenkinsfile without the text that opens the directive with a
    list, [@Library(['], has no shared library; so the directive written
    with a single quoted name, [@Library('name') _], is not seen. *)
Theorem no_list_no_library (content : string) :
  Str.contains "@Library(['" content = false ->
  GitLabAPI.parse_shared_library (PyStr content) = "No Shared Library".
Proof.
  intros H. unfold GitLabAPI.parse_shared_library, Re.search, GitLabAPI.library_re.
  rewrite (PatternFacts.search_lit_none _ _ _ _ H). reflexivity.
Qed.

Lemma no_list_no_library_witness :
  GitLabAPI.parse_shared_library (PyStr "@Library('team-lib') _")
  = "No Shared Library".
Proof. apply (no_list_no_library "@Library('team-lib') _"). reflexivity. Defined.

(** X20: for a Jenkinsfile that starts, after whitespace if any, with a word
    followed, after whitespace if any, by an opening parenthesis,
    [parse_module_name] returns that word; except that the word Library
    gives No Module Detected. *)
Theorem module_of_first_call (ind name gap rest : string) :
  Text.all_of Str.isspace ind = true ->
  Text.all_of Str.isword name = true ->
  name <> "" ->
  Text.all_of Str.isspace gap = true ->
  GitLabAPI.parse_module_name (PyStr (ind ++ name ++ gap ++ "(" ++ rest))
  = if String.eqb name "Library" then "No Module Detected" else name.
Proof.
  intros Hi Hw Hne Hg. unfold GitLabAPI.parse_module_name, Re.search.
  rewrite (ParseFacts.search_hit _ _ _ _ (ParseFacts.module_hit _ _ _ rest Hi Hw Hne Hg)).
  unfold Re.group. cbn [Re.groups Nat.sub nth].
  destruct (String.eqb name "Library"); reflexivity.
Qed.

Lemma module_of_first_call_witness :
  GitLabAPI.parse_module_name
    (PyStr (String Str.LF "  " ++ "BigDataGenericPipeline" ++ " " ++ "(" ++ "cfg)"))
  = "BigDataGenericPipeline".
Proof.
  apply (module_of_first_call (String Str.LF "  ") "BigDataGenericPipeline" " " "cfg)");
    try reflexivity.
  discriminate.
Defined.

(** X21: a Jenkinsfile without an opening parenthesis has no module. *)
Theorem module_needs_parenthesis (content : string) :
  Str.contains "(" content = false ->
  GitLabAPI.parse_module_name (PyStr content) = "No Module Detected".
Proof.
  intros H. unfold GitLabAPI.parse_module_name, Re.search.
  rewrite (ParseFacts.module_needs_paren _ None H). reflexivity.
Qed.

Lemma module_needs_parenthesis_witness :
  GitLabAPI.parse_module_name (PyStr "pipeline { agent any }") = "No Module Detected".
Proof. apply (module_needs_parenthesis "pipeline { agent any }"). reflexivity. Defined.
